(** * FlashMaster: a shallow embedding of the question bank, the answer
      matcher, the exam grader and the importers.

    Sources embedded here:
    - [src/components/QuizRunner.tsx], [src/components/ExamRunner.tsx]:
      [isMatch], [handleSubmit];
    - [src/App.tsx]: [saveQuestions], [handleImport], [handleDelete],
      [handleMasterQuestion], [handleMistake], [startMockExam],
      [handleExamComplete];
    - [src/components/Importer.tsx]: [handleJsonImport],
      [handleAiProcessing];
    - [src/services/geminiService.ts]: [cleanJsonString],
      [generateQuestionsFromTopic], [parseRawTextToQuestions].

    JavaScript strings are sequences of UTF-16 code units; they are modelled
    as [list N].  JavaScript numbers are IEEE 754 binary64 values; they are
    modelled by Rocq's primitive [float]. *)

From Stdlib Require Import ZArith NArith QArith Qround List Bool Lia Ascii String DecimalString
  Floats Permutation.
From stdpp Require Import base decidable option list countable gmap.
Import ListNotations.

(* ===================================================================== *)
(** ** JavaScript strings *)
(* ===================================================================== *)

Module JsString.

(** A string value: its UTF-16 code units, in order. *)
Abbreviation jsstring := (list N).

(** A literal made of Basic Latin characters. *)
Definition js (s : string) : jsstring :=
  map (fun a => N.of_nat (nat_of_ascii a)) (list_ascii_of_string s).

(** Truthiness of a string: every string but the empty one. *)
Definition truthy (s : jsstring) : bool :=
  match s with [] => false | _ :: _ => true end.

Definition eqb (a b : jsstring) : bool := bool_decide (a = b).

(** Code-unit classes of the regular expressions of [isMatch]. *)
Definition inRange (lo hi c : N) : bool := (lo <=? c)%N && (c <=? hi)%N.

(** [[A-Za-z]] *)
Definition isLetter (c : N) : bool := inRange 65 90 c || inRange 97 122 c.

(** [[A-Za-z0-9]] *)
Definition isAlnum (c : N) : bool := isLetter c || inRange 48 57 c.

(** [\s], which is also what [String.prototype.trim] strips: WhiteSpace
    (TAB, VT, FF, ZWNBSP and the space separators) and LineTerminator
    (LF, CR, LS, PS). *)
Definition isWhiteSpace (c : N) : bool :=
  inRange 9 13 c
  || (c =? 32)%N || (c =? 160)%N || (c =? 5760)%N
  || inRange 8192 8202 c
  || (c =? 8232)%N || (c =? 8233)%N || (c =? 8239)%N || (c =? 8287)%N
  || (c =? 12288)%N || (c =? 65279)%N.

(** [[\.\、\s]]: full stop, ideographic comma U+3001, or white space. *)
Definition isPrefixSep (c : N) : bool :=
  (c =? 46)%N || (c =? 12289)%N || isWhiteSpace c.

Fixpoint dropWhile (p : N -> bool) (s : jsstring) : jsstring :=
  match s with
  | [] => []
  | c :: s' => if p c then dropWhile p s' else s
  end.

Definition trimStart (s : jsstring) : jsstring := dropWhile isWhiteSpace s.
Definition trimEnd (s : jsstring) : jsstring :=
  rev (dropWhile isWhiteSpace (rev s)).

(** [String.prototype.trim] *)
Definition trim (s : jsstring) : jsstring := trimEnd (trimStart s).

(** Case conversion restricted to Basic Latin; the instance of
    [toLowerCase] / [toUpperCase] used to run the model on examples. *)
Definition latinLower (s : jsstring) : jsstring :=
  map (fun c => if inRange 65 90 c then (c + 32)%N else c) s.
Definition latinUpper (s : jsstring) : jsstring :=
  map (fun c => if inRange 97 122 c then (c - 32)%N else c) s.

End JsString.
Import JsString.

(* ===================================================================== *)
(** ** Data model (types.ts) *)
(* ===================================================================== *)

(** [QuestionType] is a string enum: its members are these strings at run
    time, and [Question.type] holds one of them. *)
Module QuestionType.
Definition MultipleChoice : jsstring := js "multiple-choice".
Definition TrueFalse : jsstring := js "true-false".
Definition OpenEnded : jsstring := js "open-ended".
End QuestionType.

(** [interface Question]; a field declared with [?] may be undefined. *)
Record Question : Type := mkQuestion {
  id : jsstring;
  type : jsstring;
  text : jsstring;
  options : option (list jsstring);
  correctAnswer : jsstring;
  explanation : option jsstring;
  tags : option (list jsstring);
  mastered : option bool;
  inMistakeBook : option bool
}.

(** [{ ...q, mastered: m, inMistakeBook: b }] *)
Definition withFlags (m b : bool) (q : Question) : Question :=
  mkQuestion (id q) (type q) (text q) (options q) (correctAnswer q)
             (explanation q) (tags q) (Some m) (Some b).

Inductive AppMode : Type :=
  | Dashboard | Quiz | Import | MistakeNotebook | MasteredNotebook | MockExam.

(** The state of [AppContent]: the [useState] cells its handlers below
    read or write, and the browser's [localStorage]. *)
Record AppState : Type := mkApp {
  questions : list Question;
  mode : AppMode;
  examQuestions : list Question;
  localStorage : gmap jsstring jsstring
}.

Definition LOCAL_STORAGE_KEY : jsstring := js "flashmaster_questions".

Section FlashMaster.

Set Default Proof Using "Type".

(* =================================================================== *)
(** ** The answer matcher (QuizRunner.tsx 54-94, ExamRunner.tsx 41-81) *)
(* =================================================================== *)

(** [String.prototype.toLowerCase] and [String.prototype.toUpperCase] are
    the engine's; the matcher is parametric in them. *)
Variable toLowerCase toUpperCase : jsstring -> jsstring.

(** [s.match(/^([A-Za-z])[\.\、\s]/)], then [m[1].toUpperCase()] or
    [null]. *)
Definition getPrefix (s : jsstring) : option jsstring :=
  match s with
  | x :: y :: _ =>
      if isLetter x && isPrefixSep y then Some (toUpperCase [x]) else None
  | _ => None
  end.

(** [s.replace(/^([A-Za-z0-9]+)[\.\、\s]+/, '')].  Both quantifiers are
    greedy and the two classes are disjoint, so the only candidate match
    is the longest run of alphanumerics followed by the longest run of
    separators; the string is returned as it is when either run is
    empty. *)
Definition stripPrefix (s : jsstring) : jsstring :=
  match s with
  | x :: _ =>
      if isAlnum x then
        match dropWhile isAlnum s with
        | y :: rest =>
            if isPrefixSep y then dropWhile isPrefixSep rest else s
        | [] => s
        end
      else s
  | [] => s
  end.

(** [getContent]: the replacement above, then [trim]. *)
Definition getContent (s : jsstring) : jsstring := trim (stripPrefix s).

(** [/^[A-Za-z]$/.test(s)] *)
Definition isSingleLetter (s : jsstring) : bool :=
  match s with
  | [x] => isLetter x
  | _ => false
  end.

Definition isMatch (opt correctAnswer : jsstring) : bool :=
  if negb (truthy opt) || negb (truthy correctAnswer) then false
  else
    let o := trim opt in
    let c := trim correctAnswer in
    (* 1. Exact match *)
    if eqb o c then true
    else if eqb (toLowerCase o) (toLowerCase c) then true
    else
      let oPrefix := getPrefix o in
      let cPrefix := getPrefix c in
      (* 2. Match by prefix *)
      if isSingleLetter c && bool_decide (oPrefix = Some (toUpperCase c))
      then true
      else if isSingleLetter o && bool_decide (cPrefix = Some (toUpperCase o))
      then true
      else
        (* 3. Match by content *)
        let oContent := getContent o in
        let cContent := getContent c in
        if truthy oContent && truthy cContent
           && eqb (toLowerCase oContent) (toLowerCase cContent)
        then true
        else false.



(* =================================================================== *)
(** ** The view-state container (App.tsx) *)
(* =================================================================== *)

(** [JSON.stringify] on a question list is the engine's. *)
Variable JSON_stringify : list Question -> jsstring.

(** [saveQuestions] (App.tsx 43-46) *)
Definition saveQuestions (newQuestions : list Question) (st : AppState)
  : AppState :=
  mkApp newQuestions (mode st) (examQuestions st)
        (<[LOCAL_STORAGE_KEY := JSON_stringify newQuestions]>
           (localStorage st)).

Definition setMode (m : AppMode) (st : AppState) : AppState :=
  mkApp (questions st) m (examQuestions st) (localStorage st).

Definition setExamQuestions (qs : list Question) (st : AppState)
  : AppState :=
  mkApp (questions st) (mode st) qs (localStorage st).

(** [handleImport] (App.tsx 48-52) *)
Definition handleImport (newQs : list Question) (st : AppState)
  : AppState :=
  let updated := questions st ++ newQs in
  setMode Dashboard (saveQuestions updated st).

(** [handleDelete] (App.tsx 54-58); [confirmed] is what [confirm]
    returned. *)
Definition handleDelete (confirmed : bool) (i : jsstring) (st : AppState)
  : AppState :=
  if negb confirmed then st
  else
    let updated :=
      List.filter (fun q => negb (eqb (id q) i)) (questions st) in
    saveQuestions updated st.

(** [handleMasterQuestion] (App.tsx 67-71) *)
Definition handleMasterQuestion (i : jsstring) (st : AppState)
  : AppState :=
  let updated :=
    map (fun q => if eqb (id q) i then withFlags true false q else q)
        (questions st) in
  saveQuestions updated st.

(** [handleMistake] (App.tsx 73-82) *)
Definition handleMistake (i : jsstring) (st : AppState) : AppState :=
  let updated :=
    map (fun q => if eqb (id q) i then withFlags false true q else q)
        (questions st) in
  saveQuestions updated st.

(** [wrongIds.includes(x)] *)
Definition Array_includes (wrongIds : list jsstring) (x : jsstring) : bool :=
  existsb (eqb x) wrongIds.

(** [handleExamComplete] (App.tsx 123-134) *)
Definition handleExamComplete (wrongIds : list jsstring) (st : AppState)
  : AppState :=
  match wrongIds with
  | [] => st
  | _ :: _ =>
      let updated :=
        map (fun q =>
               if Array_includes wrongIds (id q) then withFlags false true q
               else q)
            (questions st) in
      saveQuestions updated st
  end.

(** [[...questions].sort(() => 0.5 - Math.random())]: the engine's sort
    run on a copy of the list with a comparator that ignores its
    arguments and draws from [Math.random]; [Rng] is the state of the
    generator when the sort starts. *)
Variable Rng : Type.
Variable sortRandomly : Rng -> list Question -> list Question.

(** [startMockExam] (App.tsx 112-121) *)
Definition startMockExam (r : Rng) (st : AppState) : AppState :=
  match questions st with
  | [] => st
  | _ :: _ =>
      let count := Nat.min 30 (length (questions st)) in
      let shuffled := sortRandomly r (questions st) in
      let selected := firstn count shuffled in
      setMode MockExam (setExamQuestions selected st)
  end.

(* =================================================================== *)
(** ** The exam runner (ExamRunner.tsx) *)
(* =================================================================== *)

(** A count held in a Number; exact below 2^53. *)
Definition Number_of_nat (n : nat) : float :=
  PrimFloat.of_uint63 (Uint63.of_Z (Z.of_nat n)).

(** [Math.round]: the integer closest to [x], the larger one on a tie,
    that is floor (x + 1/2) computed exactly.  [None] stands for the
    results that are no integers (NaN and the infinities, which
    [Math.round] returns as they are). *)
Definition Math_round (x : float) : option Z :=
  match Prim2SF x with
  | S754_zero _ => Some 0%Z
  | S754_finite s m e =>
      let mz := if s then Z.neg m else Z.pos m in
      if (0 <=? e)%Z then Some (mz * 2 ^ e)%Z
      else Some ((2 * mz + 2 ^ (- e)) / 2 ^ (1 - e))%Z
  | S754_infinity _ | S754_nan => None
  end.

(** The [useState] cells of [ExamRunner]; [answers] holds the own
    properties of the object [Record<string, string>], keyed by question
    id.  The object starts as [{}] and is only ever rebuilt by a spread
    and a computed key, so every own property is a recorded answer. *)
Record ExamState : Type := mkExam {
  currentIndex : nat;
  answers : gmap jsstring jsstring;
  isSubmitted : bool;
  wrongIds : list jsstring;
  score : option Z
}.

Definition initialExam : ExamState := mkExam 0 ∅ false [] (Some 0%Z).

(** [handleOptionSelect] (ExamRunner.tsx 20-26) on the question shown. *)
Definition handleOptionSelect (currentQuestion : Question)
           (opt : jsstring) (ex : ExamState) : ExamState :=
  if isSubmitted ex then ex
  else mkExam (currentIndex ex) (<[id currentQuestion := opt]> (answers ex))
              (isSubmitted ex) (wrongIds ex) (score ex).

(** The names [Object.prototype] defines: the standard members and the
    legacy accessors every browser ships. *)
Definition Object_prototype_names : list jsstring :=
  [ js "constructor"; js "hasOwnProperty"; js "isPrototypeOf";
    js "propertyIsEnumerable"; js "toLocaleString"; js "toString";
    js "valueOf"; js "__proto__"; js "__defineGetter__";
    js "__defineSetter__"; js "__lookupGetter__"; js "__lookupSetter__" ].

Definition namesPrototypeMember (k : jsstring) : bool :=
  Array_includes Object_prototype_names k.

(** What [answers[k]] evaluates to: the recorded string, or else what the
    prototype chain of the plain object gives, a member of
    [Object.prototype] (a function, or the prototype itself for
    [__proto__]), or else [undefined]. *)
Inductive answerValue : Type :=
  | NoAnswer
  | Recorded (s : jsstring)
  | Inherited.

Definition readAnswer (ans : gmap jsstring jsstring) (k : jsstring)
  : answerValue :=
  match ans !! k with
  | Some s => Recorded s
  | None => if namesPrototypeMember k then Inherited else NoAnswer
  end.

(** Truthiness of such a value: functions and objects are truthy. *)
Definition answerTruthy (v : answerValue) : bool :=
  match v with
  | NoAnswer => false
  | Recorded s => truthy s
  | Inherited => true
  end.

(** [isMatch(userAnswer, correctAnswer)] on whatever [answers[q.id]]
    gave.  A member of [Object.prototype] passes the test [!option]; with
    an empty correct answer the first line returns false, and otherwise
    [option.trim()] throws a TypeError ([None]), for neither a function
    nor the prototype object has a [trim]. *)
Definition isMatchAnswer (userAnswer : answerValue) (correct : jsstring)
  : option bool :=
  match userAnswer with
  | NoAnswer => Some false
  | Recorded s => Some (isMatch s correct)
  | Inherited => if negb (truthy correct) then Some false else None
  end.

(** One turn of the [forEach] of [handleSubmit] on the pair
    [(correctCount, wrong)]; [None] when the turn throws. *)
Definition gradeOne (ans : gmap jsstring jsstring)
           (acc : nat * list jsstring) (q : Question)
  : option (nat * list jsstring) :=
  let '(correctCount, wrong) := acc in
  let userAnswer := readAnswer ans (id q) in
  if answerTruthy userAnswer then
    match isMatchAnswer userAnswer (correctAnswer q) with
    | Some true => Some (S correctCount, wrong)
    | Some false => Some (correctCount, wrong ++ [id q])
    | None => None
    end
  else Some (correctCount, wrong ++ [id q]).

(** [questions.forEach(...)]: the turns in order, up to the first one
    that throws. *)
Fixpoint gradeLoop (ans : gmap jsstring jsstring) (qs : list Question)
         (acc : nat * list jsstring) : option (nat * list jsstring) :=
  match qs with
  | [] => Some acc
  | q :: qs' =>
      match gradeOne ans acc q with
      | Some acc' => gradeLoop ans qs' acc'
      | None => None
      end
  end.

(** The grading pass, from [(0, [])]. *)
Definition grade (qs : list Question) (ans : gmap jsstring jsstring)
  : option (nat * list jsstring) :=
  gradeLoop ans qs (0, []).

(** [Math.round((correctCount / questions.length) * 100)] *)
Definition finalScore (correctCount len : nat) : option Z :=
  Math_round
    (PrimFloat.mul
       (PrimFloat.div (Number_of_nat correctCount) (Number_of_nat len))
       (Number_of_nat 100)).

(** [handleSubmit] (ExamRunner.tsx 83-110): the new state of the runner
    and the list handed to [onComplete]; [None] when the grading pass
    throws, which happens before any of the setters and [onComplete] is
    reached. *)
Definition handleSubmit (qs : list Question) (ex : ExamState)
  : option (ExamState * list jsstring) :=
  match grade qs (answers ex) with
  | Some (correctCount, wrong) =>
      Some (mkExam 0 (answers ex) true wrong
                   (finalScore correctCount (length qs)),
            wrong)
  | None => None
  end.

(** Submitting inside the app: [ExamRunner] is rendered with
    [questions={examQuestions}] and [onComplete={handleExamComplete}]
    (App.tsx 405-409).  When the handler throws, no state cell has been
    written and both states are as before the click. *)
Definition submitExam (ex : ExamState) (st : AppState)
  : ExamState * AppState :=
  match handleSubmit (examQuestions st) ex with
  | Some (ex', wrong) => (ex', handleExamComplete wrong st)
  | None => (ex, st)
  end.

(* =================================================================== *)
(** ** Untyped values: what [JSON.parse] returns (type [any]) *)
(* =================================================================== *)

(** An object is the list of its own properties in insertion order. *)
#[local] Set Warnings "-register-all".
Inductive jsval : Type :=
  | VUndefined
  | VNull
  | VBool (b : bool)
  | VNum (x : float)
  | VStr (s : jsstring)
  | VArr (elems : list jsval)
  | VObj (props : list (jsstring * jsval)).

(** ToBoolean, as [||] applies it. *)
Definition toBoolean (v : jsval) : bool :=
  match v with
  | VUndefined | VNull => false
  | VBool b => b
  | VNum x => negb (PrimFloat.is_zero x || PrimFloat.is_nan x)
  | VStr s => truthy s
  | VArr _ | VObj _ => true
  end.

Fixpoint getProp (k : jsstring) (props : list (jsstring * jsval)) : jsval :=
  match props with
  | [] => VUndefined
  | (k', v) :: rest => if eqb k' k then v else getProp k rest
  end.

(** Writing a property: in place when the key exists, at the end
    otherwise. *)
Fixpoint setProp (k : jsstring) (v : jsval)
         (props : list (jsstring * jsval)) : list (jsstring * jsval) :=
  match props with
  | [] => [(k, v)]
  | (k', v') :: rest =>
      if eqb k' k then (k, v) :: rest else (k', v') :: setProp k v rest
  end.

(** [v.k] for a name [k] that no built-in prototype defines ([id],
    [type], [options], [questions]): a TypeError ([None]) on [null] and
    [undefined], the own property of an object, [undefined] on every
    other value. *)
Definition member (v : jsval) (k : jsstring) : option jsval :=
  match v with
  | VUndefined | VNull => None
  | VObj props => Some (getProp k props)
  | VBool _ | VNum _ | VStr _ | VArr _ => Some VUndefined
  end.

(** The decimal numeral of an array index. *)
Definition indexKey (i : nat) : jsstring :=
  js (NilEmpty.string_of_uint (Nat.to_uint i)).

(** [{ ...v }]: the own enumerable properties of [v]; the indices of a
    string or an array, nothing for the other primitives, [null] and
    [undefined]. *)
Definition spread (v : jsval) : list (jsstring * jsval) :=
  match v with
  | VObj props => props
  | VArr elems => imap (fun i e => (indexKey i, e)) elems
  | VStr s => imap (fun i c => (indexKey i, VStr [c])) s
  | VUndefined | VNull | VBool _ | VNum _ => []
  end.

(** [crypto.randomUUID()]: 122 random bits printed as a version-4 UUID,
    8-4-4-4-12 lower-case hexadecimal digits. *)
Definition hexDigit (d : N) : N :=
  if (d <? 10)%N then (48 + d)%N else (87 + d)%N.

Definition uuidDigit (bits : N) (i : nat) : N :=
  let d := (N.shiftr bits (4 * N.of_nat (31 - i)) mod 16)%N in
  if Nat.eqb i 12 then 4%N
  else if Nat.eqb i 16 then (8 + d mod 4)%N
  else d.

Definition formatUUID (bits : N) : jsstring :=
  let h := map (fun i => hexDigit (uuidDigit bits i)) (seq 0 32) in
  firstn 8 h ++ [45%N] ++ firstn 4 (skipn 8 h) ++ [45%N]
    ++ firstn 4 (skipn 12 h) ++ [45%N] ++ firstn 4 (skipn 16 h)
    ++ [45%N] ++ skipn 20 h.

(** The random bits behind the k-th call of [crypto.randomUUID] of the
    session. *)
Variable randomBits : nat -> N.

(** Code that calls [crypto.randomUUID] and may throw: the number of
    calls made so far is threaded, and [None] is a thrown exception. *)
Definition M (A : Type) : Type := nat -> option A * nat.

Definition ret {A} (a : A) : M A := fun k => (Some a, k).
Definition throw {A} : M A := fun k => (None, k).
Definition bind {A B} (m : M A) (f : A -> M B) : M B :=
  fun k => match m k with
           | (Some a, k') => f a k'
           | (None, k') => (None, k')
           end.
Definition randomUUID : M jsstring :=
  fun k => (Some (formatUUID (randomBits k)), S k).
Definition lift {A} (o : option A) : M A :=
  match o with Some a => ret a | None => throw end.

(** [xs.map(f)] for a callback with effects: elements in order, stopping
    at the first exception. *)
Fixpoint mapM_ {A B} (f : A -> M B) (xs : list A) : M (list B) :=
  match xs with
  | [] => ret []
  | x :: xs' =>
      bind (f x) (fun y => bind (mapM_ f xs') (fun ys => ret (y :: ys)))
  end.

(** The typed view of an untyped value: [Some q] when the value conforms
    to [interface Question] (further properties are allowed), [None]
    otherwise. *)
Definition asString (v : jsval) : option jsstring :=
  match v with VStr s => Some s | _ => None end.

Definition asStrings (v : jsval) : option (list jsstring) :=
  match v with
  | VArr elems => mapM asString elems
  | _ => None
  end.

(** An optional field: undefined, or a value of the field's type. *)
Definition optional {A} (view : jsval -> option A) (v : jsval)
  : option (option A) :=
  match v with
  | VUndefined => Some None
  | _ => match view v with Some a => Some (Some a) | None => None end
  end.

Definition asBool (v : jsval) : option bool :=
  match v with VBool b => Some b | _ => None end.

Definition asQuestion (v : jsval) : option Question :=
  match v with
  | VObj props =>
      i ← asString (getProp (js "id") props);
      ty ← asString (getProp (js "type") props);
      tx ← asString (getProp (js "text") props);
      op ← optional asStrings (getProp (js "options") props);
      ca ← asString (getProp (js "correctAnswer") props);
      ex ← optional asString (getProp (js "explanation") props);
      tg ← optional asStrings (getProp (js "tags") props);
      ma ← optional asBool (getProp (js "mastered") props);
      mi ← optional asBool (getProp (js "inMistakeBook") props);
      Some (mkQuestion i ty tx op ca ex tg ma mi)
  | _ => None
  end.

(** What [onImport={handleImport}] does with the array an importer passes
    to it; [None] when an element does not conform to [Question], which
    the typed model of the bank does not represent. *)
Definition onImport (payload : list jsval) (st : AppState)
  : option AppState :=
  qs ← mapM asQuestion payload;
  Some (handleImport qs st).

(* =================================================================== *)
(** ** The importer (Importer.tsx) *)
(* =================================================================== *)

(** JSON 格式无效，请检查语法。 *)
Definition errJsonInvalid : jsstring :=
  [74; 83; 79; 78; 32; 26684; 24335; 26080; 25928; 65292; 35831; 26816;
   26597; 35821; 27861; 12290]%N.

(** AI 无法生成任何题目，请尝试不同的输入。 *)
Definition errAiNoQuestions : jsstring :=
  [65; 73; 32; 26080; 27861; 29983; 25104; 20219; 20309; 39064; 30446;
   65292; 35831; 23581; 35797; 19981; 21516; 30340; 36755; 20837; 12290]%N.

(** 发生了未知错误。 *)
Definition errUnknown : jsstring :=
  [21457; 29983; 20102; 26410; 30693; 38169; 35823; 12290]%N.

(** AI 返回格式有误，请重试。 *)
Definition errAiFormat : jsstring :=
  [65; 73; 32; 36820; 22238; 26684; 24335; 26377; 35823; 65292; 35831;
   37325; 35797; 12290]%N.

(** AI 解析失败，请确保文本内容清晰。 *)
Definition errAiParse : jsstring :=
  [65; 73; 32; 35299; 26512; 22833; 36133; 65292; 35831; 30830; 20445;
   25991; 26412; 20869; 23481; 28165; 26224; 12290]%N.

(** API Key 未配置。请确保环境变量 API_KEY 已设置。 *)
Definition errNoApiKey : jsstring :=
  [65; 80; 73; 32; 75; 101; 121; 32; 26410; 37197; 32622; 12290; 35831;
   30830; 20445; 29615; 22659; 21464; 37327; 32; 65; 80; 73; 95; 75;
   69; 89; 32; 24050; 35774; 32622; 12290]%N.

(** Google API Key 无效。请检查您的 API Key 是否正确 (需要 Google AI Studio Key)。 *)
Definition errBadApiKey : jsstring :=
  [71; 111; 111; 103; 108; 101; 32; 65; 80; 73; 32; 75; 101; 121; 32;
   26080; 25928; 12290; 35831; 26816; 26597; 24744; 30340; 32; 65; 80;
   73; 32; 75; 101; 121; 32; 26159; 21542; 27491; 30830; 32; 40; 38656;
   35201; 32; 71; 111; 111; 103; 108; 101; 32; 65; 73; 32; 83; 116;
   117; 100; 105; 111; 32; 75; 101; 121; 41; 12290]%N.

(** 请求过于频繁 (429)。您可能达到了 Gemini 免费层级的限制，请稍后重试。 *)
Definition errRateLimit : jsstring :=
  [35831; 27714; 36807; 20110; 39057; 32321; 32; 40; 52; 50; 57; 41;
   12290; 24744; 21487; 33021; 36798; 21040; 20102; 32; 71; 101; 109;
   105; 110; 105; 32; 20813; 36153; 23618; 32423; 30340; 38480; 21046;
   65292; 35831; 31245; 21518; 37325; 35797; 12290]%N.

(** Gemini 请求失败:  *)
Definition errRequestPrefix : jsstring :=
  [71; 101; 109; 105; 110; 105; 32; 35831; 27714; 22833; 36133; 58; 32]%N.

Inductive Tab : Type := TabJson | TabAiText | TabAiTopic.

Record ImporterState : Type := mkImporter {
  activeTab : Tab;
  inputText : jsstring;
  isLoading : bool;
  error : option jsstring
}.

Definition setError (e : option jsstring) (imp : ImporterState)
  : ImporterState :=
  mkImporter (activeTab imp) (inputText imp) (isLoading imp) e.

Definition setIsLoading (b : bool) (imp : ImporterState) : ImporterState :=
  mkImporter (activeTab imp) (inputText imp) b (error imp).

(** [JSON.parse] is the engine's; [None] when it throws. *)
Variable JSON_parse : jsstring -> option jsval.

(** The callback of the [map] of [handleJsonImport] (Importer.tsx
    24-30). *)
Definition validQuestion (q : jsval) : M jsval :=
  bind (lift (member q (js "id"))) (fun qid =>
  bind (if toBoolean qid then ret qid
        else bind randomUUID (fun u => ret (VStr u))) (fun i =>
  bind (lift (member q (js "type"))) (fun qtype =>
  let ty := if toBoolean qtype then qtype
            else VStr QuestionType.OpenEnded in
  ret (VObj (setProp (js "type") ty
            (setProp (js "inMistakeBook") (VBool false)
            (setProp (js "mastered") (VBool false)
            (setProp (js "id") i (spread q))))))))).

(** The body of the [try] of [handleJsonImport] up to the call of
    [onImport]. *)
Definition parseJsonInput (input : jsstring) : M (list jsval) :=
  bind (lift (JSON_parse input)) (fun parsed =>
  let qs := match parsed with VArr elems => elems | _ => [parsed] end in
  mapM_ validQuestion qs).

(** [handleJsonImport] (Importer.tsx 17-36) with [onImport] bound to
    [handleImport]; [k] counts the calls of [crypto.randomUUID]. *)
Definition handleJsonImport (imp : ImporterState) (k : nat)
           (st : AppState) : option (ImporterState * nat * AppState) :=
  let imp0 := setError None imp in
  match parseJsonInput (inputText imp) k with
  | (Some validQuestions, k') =>
      st' ← onImport validQuestions st;
      Some (imp0, k', st')
  | (None, k') => Some (setError (Some errJsonInvalid) imp0, k', st)
  end.

(* =================================================================== *)
(** ** The generative-text service (geminiService.ts) *)
(* =================================================================== *)

Fixpoint startsWith (p s : jsstring) : bool :=
  match p, s with
  | [], _ => true
  | _ :: _, [] => false
  | a :: p', b :: s' => (a =? b)%N && startsWith p' s'
  end.

(** [s.includes(p)] on strings *)
Fixpoint String_includes (p s : jsstring) : bool :=
  startsWith p s
  || match s with
     | [] => false
     | _ :: s' => String_includes p s'
     end.

Definition backticks : jsstring := js "```".

(** [cleanJsonString] (geminiService.ts 9-14), with the pattern
    [/^```(?:json)?\s*([\s\S]*?)\s*```$/i]: after the opening fence, the
    optional word and the leading white space (each quantifier takes all
    it can, and giving any of it back never turns a failure into a
    match), the lazy group stops at the first position from which only
    white space and the closing fence remain. *)
Definition cleanJsonString (text : jsstring) : jsstring :=
  if negb (truthy text) then js "{}"
  else if startsWith backticks text then
    let r1 := skipn 3 text in
    let r2 := if startsWith (js "json") (latinLower (firstn 4 r1))
              then skipn 4 r1 else r1 in
    let r3 := trimStart r2 in
    if startsWith backticks (rev r3) then
      let group := trimEnd (rev (skipn 3 (rev r3))) in
      if truthy group then group else text
    else text
  else text.

(** What the [catch] of [callGemini] reads of the value thrown. *)
Record ErrorValue : Type := mkError {
  message : jsstring;
  toString : jsstring
}.

(** [new Error(m)] *)
Definition newError (m : jsstring) : ErrorValue :=
  mkError m (js "Error: " ++ m).

(** The outcome of [ai.models.generateContent]: a rejection, or a
    response whose [text] may be empty or undefined. *)
Inductive sdkOutcome : Type :=
  | SdkRejects (e : ErrorValue)
  | SdkResponds (responseText : option jsstring).

(** A computation that completes normally or throws an [Error] with the
    given message. *)
Inductive completion (A : Type) : Type :=
  | Normal (a : A)
  | Throws (msg : jsstring).
Arguments Normal {A} a.
Arguments Throws {A} msg.

(** The [catch] block of [callGemini] (geminiService.ts 43-55). *)
Definition callGeminiCatch {A} (e : ErrorValue) : completion A :=
  if String_includes (js "401") (message e)
     || String_includes (js "API key") (toString e)
  then Throws errBadApiKey
  else if String_includes (js "429") (message e) then Throws errRateLimit
  else Throws (errRequestPrefix ++ message e).

(** [callGemini] (geminiService.ts 16-56) in JSON mode, given the
    [API_KEY] of the environment and the outcome of the remote call.  Both
    callers pass a user message that starts with a fixed non-empty label,
    so the test [!userMessage] never fires. *)
Definition callGemini (apiKey : option jsstring) (sdk : sdkOutcome)
  : completion jsstring :=
  match apiKey with
  | None => Throws errNoApiKey
  | Some key =>
      if negb (truthy key) then Throws errNoApiKey
      else
        match sdk with
        | SdkRejects e => callGeminiCatch e
        | SdkResponds (Some t) =>
            if truthy t then Normal t
            else callGeminiCatch
                   (newError (js "Gemini returned empty response"))
        | SdkResponds None =>
            callGeminiCatch (newError (js "Gemini returned empty response"))
        end
  end.

(** The callback of the [map] of both service functions
    (geminiService.ts 85-91 and 129-135). *)
Definition generatedQuestion (q : jsval) : M jsval :=
  bind randomUUID (fun u =>
  bind (lift (member q (js "type"))) (fun qtype =>
  bind (match qtype with
        | VStr t => if eqb t QuestionType.OpenEnded then ret (VArr [])
                    else lift (member q (js "options"))
        | _ => lift (member q (js "options"))
        end) (fun opts =>
  ret (VObj (setProp (js "options") opts
            (setProp (js "inMistakeBook") (VBool false)
            (setProp (js "mastered") (VBool false)
            (setProp (js "id") (VStr u) (spread q))))))))).

(** The body of the [try] of both service functions (geminiService.ts
    81-91 and 125-135); [None] is any exception raised inside it. *)
Definition parseReply (response : jsstring) : M (list jsval) :=
  bind (lift (JSON_parse (cleanJsonString response))) (fun parsed =>
  bind (lift (member parsed (js "questions"))) (fun qv =>
  let qs := if toBoolean qv then qv else VArr [] in
  match qs with
  | VArr elems => mapM_ generatedQuestion elems
  | _ => throw
  end)).

(** The [try]/[catch] of a service function, which replaces every
    exception by an [Error] with a fixed message. *)
Definition questionsFromReply (failure : jsstring)
           (response : completion jsstring) (k : nat)
  : completion (list jsval) * nat :=
  match response with
  | Throws msg => (Throws msg, k)
  | Normal text =>
      match parseReply text k with
      | (Some qs, k') => (Normal qs, k')
      | (None, k') => (Throws failure, k')
      end
  end.

(** [generateQuestionsFromTopic] (geminiService.ts 60-96) *)
Definition generateQuestionsFromTopic (apiKey : option jsstring)
           (sdk : sdkOutcome) (k : nat) : completion (list jsval) * nat :=
  questionsFromReply errAiFormat (callGemini apiKey sdk) k.

(** [parseRawTextToQuestions] (geminiService.ts 98-140) *)
Definition parseRawTextToQuestions (apiKey : option jsstring)
           (sdk : sdkOutcome) (k : nat) : completion (list jsval) * nat :=
  questionsFromReply errAiParse (callGemini apiKey sdk) k.

(** [handleAiProcessing] (Importer.tsx 38-60) with [onImport] bound to
    [handleImport]; [sdk] is the outcome of the remote call the service
    function makes for the current input.  The service functions throw
    [Error] objects only, so the [catch] always shows [e.message]. *)
Definition handleAiProcessing (apiKey : option jsstring)
           (sdk : sdkOutcome) (imp : ImporterState) (k : nat)
           (st : AppState) : option (ImporterState * nat * AppState) :=
  if negb (truthy (trim (inputText imp))) then Some (imp, k, st)
  else
    let imp0 := setError None (setIsLoading true imp) in
    let service :=
      match activeTab imp with
      | TabAiText => parseRawTextToQuestions
      | TabJson | TabAiTopic => generateQuestionsFromTopic
      end in
    match service apiKey sdk k with
    | (Normal qs, k') =>
        match qs with
        | [] =>
            Some (setIsLoading false
                    (setError (Some errAiNoQuestions) imp0), k', st)
        | _ :: _ =>
            st' ← onImport qs st;
            Some (setIsLoading false imp0, k', st')
        end
    | (Throws msg, k') =>
        Some (setIsLoading false (setError (Some msg) imp0), k', st)
    end.

(* =================================================================== *)
(** ** Statements of the specification, in its own words *)
(* =================================================================== *)

(** Two strings are equal ignoring case. *)
Definition eqIgnoreCase (a b : jsstring) : Prop :=
  toLowerCase a = toLowerCase b.

(** The letter prefix of a string: the A of "A. Apple". *)
Definition letterPrefix (s : jsstring) : option N :=
  match s with
  | x :: y :: _ => if isLetter x && isPrefixSep y then Some x else None
  | _ => None
  end.

(** The letter of a string that is a single letter. *)
Definition letterOf (s : jsstring) : option N :=
  match s with
  | [x] => if isLetter x then Some x else None
  | _ => None
  end.

(** [single] is a single letter equal, ignoring case, to the letter
    prefix of [other]. *)
Definition letterMatchesPrefix (single other : jsstring) : Prop :=
  exists x p, letterOf single = Some x /\ letterPrefix other = Some p
              /\ eqIgnoreCase [x] [p].

(** When the matcher answers true, as the specification words it. *)
Definition matches_as_claimed (opt correct : jsstring) : Prop :=
  opt <> [] /\ correct <> [] /\
  let o := trim opt in
  let c := trim correct in
  eqIgnoreCase o c
  \/ letterMatchesPrefix c o
  \/ letterMatchesPrefix o c
  \/ eqIgnoreCase (stripPrefix o) (stripPrefix c).

(** The same with the content-only compare restricted to contents that
    are not empty. *)
Definition matches_amended (opt correct : jsstring) : Prop :=
  opt <> [] /\ correct <> [] /\
  let o := trim opt in
  let c := trim correct in
  eqIgnoreCase o c
  \/ letterMatchesPrefix c o
  \/ letterMatchesPrefix o c
  \/ (stripPrefix o <> [] /\ stripPrefix c <> []
      /\ eqIgnoreCase (stripPrefix o) (stripPrefix c)).

(** No code unit satisfying [p] at the front. *)
Definition clearFront (p : N -> bool) (s : jsstring) : Prop :=
  match s with
  | [] => True
  | x :: _ => p x = false
  end.

(** A trimmed string: no white space at either end. *)
Definition trimmed (s : jsstring) : Prop :=
  clearFront isWhiteSpace s /\ clearFront isWhiteSpace (rev s).

(** The number of questions whose recorded answer matches their correct
    answer. *)
Definition answeredCorrectly (ans : gmap jsstring jsstring) (q : Question)
  : bool :=
  match ans !! id q with
  | Some a => isMatch a (correctAnswer q)
  | None => false
  end.

Definition numCorrect (qs : list Question) (ans : gmap jsstring jsstring)
  : nat :=
  length (List.filter (answeredCorrectly ans) qs).

(** The percentage [correct] of [total], rounded to the nearest integer
    (upwards from a half): floor (100 * correct / total + 1/2). *)
Definition roundedPercent (correct total : nat) : Z :=
  Qfloor (Qplus (Qdiv (inject_Z (100 * Z.of_nat correct))
                      (inject_Z (Z.of_nat total)))
                (Qmake 1 2)).

(** The questions of an exam that were answered at all. *)
Definition answered (ans : gmap jsstring jsstring) (q : Question) : bool :=
  match ans !! id q with
  | Some a => truthy a
  | None => false
  end.

(** The grading pass can go through on this question: it has a
    recorded answer, or its id is no name of a member of
    [Object.prototype], or its correct answer is empty. *)
Definition gradable (ans : gmap jsstring jsstring) (q : Question) : Prop :=
  ans !! id q = None -> namesPrototypeMember (id q) = true ->
  correctAnswer q = [].

(** Two questions that differ at most in their two flags. *)
Definition sameContent (q q' : Question) : Prop :=
  id q' = id q /\ type q' = type q /\ text q' = text q
  /\ options q' = options q /\ correctAnswer q' = correctAnswer q
  /\ explanation q' = explanation q /\ tags q' = tags q.

(** No question is both mastered and in the mistake book. *)
Definition flagsConsistent (q : Question) : Prop :=
  ~ (mastered q = Some true /\ inMistakeBook q = Some true).

(** The storage slot holds the serialization of the in-memory list. *)
Definition persisted (st : AppState) : Prop :=
  localStorage st !! LOCAL_STORAGE_KEY = Some (JSON_stringify (questions st)).

(** The check that, up to 39 questions, the binary64 evaluation of
    [Math.round((correctCount / length) * 100)] is the exact rounded
    percentage, for every possible count. *)
Definition scoreTableOk : bool :=
  forallb (fun n =>
    forallb (fun c =>
      match finalScore c n with
      | Some z => (z =? roundedPercent c n)%Z
      | None => false
      end) (seq 0 (S n))) (seq 1 39).

(** The property [k] of a record of a JSON payload. *)
Definition field (k : jsstring) (v : jsval) : jsval :=
  match v with
  | VObj props => getProp k props
  | _ => VUndefined
  end.

Definition isSome {A} (o : option A) : bool :=
  match o with Some _ => true | None => false end.

(** A question record of a JSON payload: an object with a text and a
    correct answer, whose id and type are strings when present, and whose
    options, explanation and tags are as [interface Question] types
    them when present. *)
Definition isQuestionRecord (v : jsval) : bool :=
  match v with
  | VObj props =>
      isSome (optional asString (getProp (js "id") props))
      && isSome (optional asString (getProp (js "type") props))
      && isSome (asString (getProp (js "text") props))
      && isSome (optional asStrings (getProp (js "options") props))
      && isSome (asString (getProp (js "correctAnswer") props))
      && isSome (optional asString (getProp (js "explanation") props))
      && isSome (optional asStrings (getProp (js "tags") props))
  | _ => false
  end.

(** The reply parses as a JSON object containing a "questions" array. *)
Definition hasQuestionsArray (reply : jsstring) : Prop :=
  exists props elems,
    JSON_parse (cleanJsonString reply) = Some (VObj props)
    /\ getProp (js "questions") props = VArr elems.

(** Both flags of a question are false. *)
Definition flagsCleared (q : Question) : Prop :=
  mastered q = Some false /\ inMistakeBook q = Some false.

(** What the JSON import makes of one record of the payload. *)
Definition importedFrom (e : jsval) (q : Question) : Prop :=
  flagsCleared q
  /\ id q <> []
  /\ (forall s, field (js "id") e = VStr s -> s <> [] -> id q = s)
  /\ (field (js "type") e = VUndefined -> type q = QuestionType.OpenEnded)
  /\ (forall t, field (js "type") e = VStr t -> t <> [] -> type q = t)
  /\ field (js "text") e = VStr (text q)
  /\ field (js "correctAnswer") e = VStr (correctAnswer q)
  /\ optional asStrings (field (js "options") e) = Some (options q)
  /\ optional asString (field (js "explanation") e) = Some (explanation q)
  /\ optional asStrings (field (js "tags") e) = Some (tags q).

(* =================================================================== *)
(** ** Instances and sample data for running the model *)
(* =================================================================== *)

(** An instance of the engine's sort: insertion sort in which every
    comparison is answered by the next coin, that is by whether
    [0.5 - Math.random()] came out positive. *)
Fixpoint insertByCoins (coins : list bool) (x : Question)
         (sorted : list Question) {struct sorted}
  : list Question * list bool :=
  match sorted with
  | [] => ([x], coins)
  | y :: ys =>
      match coins with
      | true :: coins' =>
          let '(l, c) := insertByCoins coins' x ys in (y :: l, c)
      | false :: coins' => (x :: sorted, coins')
      | [] => (x :: sorted, [])
      end
  end.

Fixpoint sortByCoins (coins : list bool) (l : list Question)
  : list Question * list bool :=
  match l with
  | [] => ([], coins)
  | x :: l' =>
      let '(s, c) := sortByCoins coins l' in insertByCoins c x s
  end.

Definition coinSort (coins : list bool) (l : list Question)
  : list Question :=
  fst (sortByCoins coins l).

(** A stand-in for [JSON.stringify]: the ids, each followed by a comma. *)
Definition stringifyIds (qs : list Question) : jsstring :=
  concat (map (fun q => id q ++ js ",") qs).

Definition sampleBits (k : nat) : N :=
  (N.of_nat (S k) * 1311768467463790320)%N.

(** [{"text":"2+2?","correctAnswer":"4"},{"id":"q7","type":"true-false","text":"Sky is blue","options":["A. True","B. False"],"correctAnswer":"A","mastered":true}] *)
Definition sampleJsonText : jsstring :=
  [91; 123; 34; 116; 101; 120; 116; 34; 58; 34; 50; 43; 50; 63; 34; 44;
   34; 99; 111; 114; 114; 101; 99; 116; 65; 110; 115; 119; 101; 114;
   34; 58; 34; 52; 34; 125; 44; 123; 34; 105; 100; 34; 58; 34; 113; 55;
   34; 44; 34; 116; 121; 112; 101; 34; 58; 34; 116; 114; 117; 101; 45;
   102; 97; 108; 115; 101; 34; 44; 34; 116; 101; 120; 116; 34; 58; 34;
   83; 107; 121; 32; 105; 115; 32; 98; 108; 117; 101; 34; 44; 34; 111;
   112; 116; 105; 111; 110; 115; 34; 58; 91; 34; 65; 46; 32; 84; 114;
   117; 101; 34; 44; 34; 66; 46; 32; 70; 97; 108; 115; 101; 34; 93; 44;
   34; 99; 111; 114; 114; 101; 99; 116; 65; 110; 115; 119; 101; 114;
   34; 58; 34; 65; 34; 44; 34; 109; 97; 115; 116; 101; 114; 101; 100;
   34; 58; 116; 114; 117; 101; 125; 93]%N.

Definition sampleJsonValue : jsval :=
  VArr
    [ VObj [ (js "text", VStr (js "2+2?"));
             (js "correctAnswer", VStr (js "4")) ];
      VObj [ (js "id", VStr (js "q7"));
             (js "type", VStr QuestionType.TrueFalse);
             (js "text", VStr (js "Sky is blue"));
             (js "options",
              VArr [VStr (js "A. True"); VStr (js "B. False")]);
             (js "correctAnswer", VStr (js "A"));
             (js "mastered", VBool true) ] ].

(** A stand-in for [JSON.parse] that knows two inputs. *)
Definition sampleParse (s : jsstring) : option jsval :=
  if eqb s sampleJsonText then Some sampleJsonValue
  else if eqb s (js "{}") then Some (VObj [])
  else None.

Definition sampleQuestion (i : nat) (answer : jsstring) (m b : option bool)
  : Question :=
  mkQuestion (js "q" ++ indexKey i) QuestionType.MultipleChoice
             (js "Pick one")
             (Some [js "A. Apple"; js "B. Pear"; js "C. Plum"])
             answer None None m b.

Definition sampleBank : list Question :=
  [ sampleQuestion 0 (js "A") None None;
    sampleQuestion 1 (js "Pear") (Some false) (Some true);
    sampleQuestion 2 (js "C. Plum") (Some true) (Some false) ].

Definition sampleApp : AppState := mkApp sampleBank MockExam sampleBank ∅.

(** One right answer, one wrong answer, one question left open. *)
Definition sampleAnswers : gmap jsstring jsstring :=
  <[js "q0" := js "A. Apple"]> (<[js "q1" := js "C. Plum"]> ∅).

Definition sampleExam : ExamState :=
  mkExam 2 sampleAnswers false [] (Some 0%Z).

(** An exam of forty questions, the first twenty-three answered
    correctly and the others not at all. *)
Definition fortyQuestions : list Question :=
  map (fun i => sampleQuestion i (js "A") None None) (seq 0 40).

Definition fortyAnswers : gmap jsstring jsstring :=
  list_to_map (map (fun i => (js "q" ++ indexKey i, js "A")) (seq 0 23)).

Definition fortyExam : ExamState :=
  mkExam 39 fortyAnswers false [] (Some 0%Z).

(** A bank of forty questions on the dashboard, and the coins of one
    run of the sort. *)
Definition fortyApp : AppState := mkApp fortyQuestions Dashboard [] ∅.

Definition fortyCoins : list bool :=
  concat (repeat [true; false; true; true; false; true; true; true; false]
                 60).

(** A question whose id is the name of a member of [Object.prototype],
    as [handleJsonImport] keeps it from a record that brings this id. *)
Definition protoQuestion : Question :=
  mkQuestion (js "constructor") QuestionType.MultipleChoice
             (js "Pick one")
             (Some [js "A. Apple"; js "B. Pear"; js "C. Plum"])
             (js "B") None None (Some false) (Some false).

Definition protoBank : list Question :=
  [ sampleQuestion 0 (js "A") (Some false) (Some false); protoQuestion ].

(** The text
    [{"id":"q0","type":"multiple-choice","text":"Pick
    one","options":["A. Apple","B. Pear","C. Plum"],"correctAnswer":"A
    "},{"id":"constructor","type":"multiple-choice","text":"Pick
    one","options":["A. Apple","B. Pear","C.
    Plum"],"correctAnswer":"B"}] *)
Definition protoJsonText : jsstring :=
  [91; 123; 34; 105; 100; 34; 58; 34; 113; 48; 34; 44; 34; 116; 121;
   112; 101; 34; 58; 34; 109; 117; 108; 116; 105; 112; 108; 101; 45;
   99; 104; 111; 105; 99; 101; 34; 44; 34; 116; 101; 120; 116; 34; 58;
   34; 80; 105; 99; 107; 32; 111; 110; 101; 34; 44; 34; 111; 112; 116;
   105; 111; 110; 115; 34; 58; 91; 34; 65; 46; 32; 65; 112; 112; 108;
   101; 34; 44; 34; 66; 46; 32; 80; 101; 97; 114; 34; 44; 34; 67; 46;
   32; 80; 108; 117; 109; 34; 93; 44; 34; 99; 111; 114; 114; 101; 99;
   116; 65; 110; 115; 119; 101; 114; 34; 58; 34; 65; 34; 125; 44; 123;
   34; 105; 100; 34; 58; 34; 99; 111; 110; 115; 116; 114; 117; 99;
   116; 111; 114; 34; 44; 34; 116; 121; 112; 101; 34; 58; 34; 109;
   117; 108; 116; 105; 112; 108; 101; 45; 99; 104; 111; 105; 99; 101;
   34; 44; 34; 116; 101; 120; 116; 34; 58; 34; 80; 105; 99; 107; 32;
   111; 110; 101; 34; 44; 34; 111; 112; 116; 105; 111; 110; 115; 34;
   58; 91; 34; 65; 46; 32; 65; 112; 112; 108; 101; 34; 44; 34; 66; 46;
   32; 80; 101; 97; 114; 34; 44; 34; 67; 46; 32; 80; 108; 117; 109;
   34; 93; 44; 34; 99; 111; 114; 114; 101; 99; 116; 65; 110; 115; 119;
   101; 114; 34; 58; 34; 66; 34; 125; 93]%N.

Definition protoJsonValue : jsval :=
  VArr
    [ VObj [ (js "id", VStr (js "q0"));
             (js "type", VStr QuestionType.MultipleChoice);
             (js "text", VStr (js "Pick one"));
             (js "options",
              VArr [VStr (js "A. Apple"); VStr (js "B. Pear");
                    VStr (js "C. Plum")]);
             (js "correctAnswer", VStr (js "A")) ];
      VObj [ (js "id", VStr (js "constructor"));
             (js "type", VStr QuestionType.MultipleChoice);
             (js "text", VStr (js "Pick one"));
             (js "options",
              VArr [VStr (js "A. Apple"); VStr (js "B. Pear");
                    VStr (js "C. Plum")]);
             (js "correctAnswer", VStr (js "B")) ] ].

(** A stand-in for [JSON.parse] that knows this one input. *)
Definition protoParse (s : jsstring) : option jsval :=
  if eqb s protoJsonText then Some protoJsonValue else None.

(** A fresh browser on the import screen. *)
Definition freshApp : AppState := mkApp [] Import [] ∅.

(** The application after this import and the start of a mock exam. *)
Definition protoApp : AppState :=
  mkApp protoBank MockExam protoBank
        (<[LOCAL_STORAGE_KEY := stringifyIds protoBank]> ∅).

(** The exam screen on the last question, the first question answered
    (correctly) and the last one not. *)
Definition protoExam : ExamState :=
  mkExam 1 (<[js "q0" := js "A. Apple"]> ∅) false [] (Some 0%Z).

Definition sampleImporter : ImporterState :=
  mkImporter TabJson sampleJsonText false None.

Definition sampleAiImporter : ImporterState :=
  mkImporter TabAiTopic (js "fruit") false None.

(* =================================================================== *)
(** ** Further code of the same files *)
(* =================================================================== *)

(** A flag read as a condition: [undefined] and [false] are falsy. *)
Definition flagSet (f : option bool) : bool :=
  match f with
  | Some true => true
  | Some false | None => false
  end.

(** [mistakeQuestions] and [masteredQuestions] (App.tsx 23-24), the lists
    behind the two notebooks, and their counts (App.tsx 136-137). *)
Definition mistakeQuestions (st : AppState) : list Question :=
  List.filter (fun q => flagSet (inMistakeBook q) && negb (flagSet (mastered q)))
              (questions st).

Definition masteredQuestions (st : AppState) : list Question :=
  List.filter (fun q => flagSet (mastered q)) (questions st).

Definition masteredCount (st : AppState) : nat := length (masteredQuestions st).
Definition mistakeCount (st : AppState) : nat := length (mistakeQuestions st).

(** [setQuestions] alone: the list changes, the storage does not. *)
Definition setQuestions (qs : list Question) (st : AppState) : AppState :=
  mkApp qs (mode st) (examQuestions st) (localStorage st).

(** The loading half of the mount effect (App.tsx 32-40).  The parsed
    value is stored as it is; [None] when it is no array of [Question]s,
    which the typed model of the bank does not represent. *)
Definition loadQuestions (st : AppState) : option AppState :=
  match localStorage st !! LOCAL_STORAGE_KEY with
  | Some saved =>
      if truthy saved then
        match JSON_parse saved with
        | Some (VArr vs) =>
            qs ← mapM asQuestion vs;
            Some (setQuestions qs st)
        | Some _ => None
        | None => Some st
        end
      else Some st
  | None => Some st
  end.

(** [handleClearAll] (App.tsx 61-65) *)
Definition handleClearAll (confirmed : bool) (st : AppState) : AppState :=
  if confirmed then saveQuestions [] st else st.

(** [handleNext] and [handlePrev] of [ExamRunner] (ExamRunner.tsx 28-38).
    [currentIndex < questions.length - 1] is written without the
    subtraction, which on an empty list gives -1 in the source and makes
    the test false. *)
Definition setCurrentIndex (i : nat) (ex : ExamState) : ExamState :=
  mkExam i (answers ex) (isSubmitted ex) (wrongIds ex) (score ex).

Definition Exam_handleNext (qs : list Question) (ex : ExamState)
  : ExamState :=
  if S (currentIndex ex) <? length qs
  then setCurrentIndex (S (currentIndex ex)) ex
  else ex.

Definition Exam_handlePrev (ex : ExamState) : ExamState :=
  if 0 <? currentIndex ex
  then setCurrentIndex (currentIndex ex - 1) ex
  else ex.

(** What the user can do on the exam screen (ExamRunner.tsx 112-279). *)
Inductive ExamEvent : Type :=
  | ClickNext
  | ClickPrev
  | ChooseAnswer (opt : jsstring)
  | ClickSubmit.

(** One event on the exam screen: the new state, and the argument of
    [onComplete] when the event calls it.  Nothing but "Loading..." is
    rendered when [questions[currentIndex]] is undefined (line 112); the
    submit button exists only before submission, on the last question
    (lines 249-256); the other controls call their handlers, which guard
    themselves; a click whose handler throws leaves the state as it
    is. *)
Definition examStep (qs : list Question) (ev : ExamEvent) (ex : ExamState)
  : ExamState * option (list jsstring) :=
  match nth_error qs (currentIndex ex) with
  | None => (ex, None)
  | Some currentQuestion =>
      match ev with
      | ClickNext => (Exam_handleNext qs ex, None)
      | ClickPrev => (Exam_handlePrev ex, None)
      | ChooseAnswer opt => (handleOptionSelect currentQuestion opt ex, None)
      | ClickSubmit =>
          if negb (isSubmitted ex) && (S (currentIndex ex) =? length qs)
          then match handleSubmit qs ex with
               | Some (ex', wrong) => (ex', Some wrong)
               | None => (ex, None)
               end
          else (ex, None)
      end
  end.

(** A run of events; the calls of [onComplete] are collected in order. *)
Fixpoint examRun (qs : list Question) (evs : list ExamEvent) (ex : ExamState)
  : ExamState * list (list jsstring) :=
  match evs with
  | [] => (ex, [])
  | ev :: evs' =>
      let '(ex1, call) := examStep qs ev ex in
      let '(ex2, calls) := examRun qs evs' ex1 in
      (ex2, match call with Some w => w :: calls | None => calls end)
  end.

(** The [useState] cells of [QuizRunner] that [checkAnswer] and the
    option buttons use (QuizRunner.tsx 15-18). *)
Record QuizState : Type := mkQuiz {
  quizIndex : nat;
  isFlipped : bool;
  selectedOption : option jsstring;
  isEvaluated : bool
}.

(** [handleOptionSelect] of [QuizRunner] (QuizRunner.tsx 48-51) *)
Definition Quiz_handleOptionSelect (opt : jsstring) (qz : QuizState)
  : QuizState :=
  if isEvaluated qz then qz
  else mkQuiz (quizIndex qz) (isFlipped qz) (Some opt) (isEvaluated qz).

(** [selectedOption && isMatch(selectedOption, correctAnswer)]
    (QuizRunner.tsx 100 and 130) *)
Definition isSelectedCorrect (qz : QuizState) (q : Question) : bool :=
  match selectedOption qz with
  | Some o => truthy o && isMatch o (correctAnswer q)
  | None => false
  end.

(** [checkAnswer] (QuizRunner.tsx 96-106) with [onMistake] bound to
    [handleMistake] (App.tsx 400), on the question shown. *)
Definition checkAnswer (qs : list Question) (qz : QuizState) (st : AppState)
  : QuizState * AppState :=
  let qz' := mkQuiz (quizIndex qz) (isFlipped qz) (selectedOption qz) true in
  match nth_error qs (quizIndex qz) with
  | None => (qz', st)
  | Some currentQuestion =>
      if isSelectedCorrect qz currentQuestion then (qz', st)
      else (qz', handleMistake (id currentQuestion) st)
  end.

(** 暂无解析 *)
Definition noExplanation : jsstring :=
  [26242; 26080; 35299; 26512]%N.

(** 无法获取解析:  *)
Definition explanationFailedPrefix : jsstring :=
  [26080; 27861; 33719; 21462; 35299; 26512; 58; 32]%N.

(** [explainAnswer] (geminiService.ts 142-156): the reply, or a message
    built from the error.  It calls [callGemini] in text mode, which
    differs from the JSON mode in the request only. *)
Definition explainAnswer (apiKey : option jsstring) (sdk : sdkOutcome)
  : jsstring :=
  match callGemini apiKey sdk with
  | Normal response => if truthy response then response else noExplanation
  | Throws msg => explanationFailedPrefix ++ msg
  end.

(** A record of a generated reply: an object with a type, a text and a
    correct answer, and with options, explanation and tags as
    [interface Question] types them when present (the options of an
    open-ended record are not read). *)
Definition isGeneratedRecord (v : jsval) : bool :=
  match v with
  | VObj props =>
      match getProp (js "type") props with
      | VStr t =>
          (eqb t QuestionType.OpenEnded
           || isSome (optional asStrings (getProp (js "options") props)))
          && isSome (asString (getProp (js "text") props))
          && isSome (asString (getProp (js "correctAnswer") props))
          && isSome (optional asString (getProp (js "explanation") props))
          && isSome (optional asStrings (getProp (js "tags") props))
      | _ => false
      end
  | _ => false
  end.

(** What an AI import makes of one record of the reply, given the UUID
    drawn for it. *)
Definition generatedFrom (e : jsval) (u : jsstring) (q : Question) : Prop :=
  id q = u
  /\ flagsCleared q
  /\ field (js "type") e = VStr (type q)
  /\ field (js "text") e = VStr (text q)
  /\ field (js "correctAnswer") e = VStr (correctAnswer q)
  /\ (type q = QuestionType.OpenEnded -> options q = Some [])
  /\ (type q <> QuestionType.OpenEnded ->
      optional asStrings (field (js "options") e) = Some (options q))
  /\ optional asString (field (js "explanation") e) = Some (explanation q)
  /\ optional asStrings (field (js "tags") e) = Some (tags q).

(** All code units of a string are white space. *)
Definition blank (s : jsstring) : Prop :=
  Forall (fun c => isWhiteSpace c = true) s.

(** The check behind the bounds of the score, up to 39 questions: the
    score lies between 0 and 100, is 100 only when every answer is
    correct and 0 only when none is. *)
Definition scoreBoundsOk : bool :=
  forallb (fun n =>
    forallb (fun c =>
      match finalScore c n with
      | Some z => (0 <=? z)%Z && (z <=? 100)%Z
                  && Bool.eqb (z =? 100)%Z (c =? n)
                  && Bool.eqb (z =? 0)%Z (c =? 0)
      | None => false
      end) (seq 0 (S n))) (seq 1 39).

(** A stand-in for [JSON.parse] given by the table of the inputs it
    accepts. *)
Definition tableParse (table : list (jsstring * jsval)) (s : jsstring)
  : option jsval :=
  match find (fun p => eqb (fst p) s) table with
  | Some (_, v) => Some v
  | None => None
  end.

(** {"text":"2+2?","correctAnswer":"4"} *)
Definition sampleRecordText : jsstring :=
  [123; 34; 116; 101; 120; 116; 34; 58; 34; 50; 43; 50; 63; 34; 44; 34;
   99; 111; 114; 114; 101; 99; 116; 65; 110; 115; 119; 101; 114; 34; 58;
   34; 52; 34; 125]%N.

Definition sampleRecordValue : jsval :=
  VObj [ (js "text", VStr (js "2+2?")); (js "correctAnswer", VStr (js "4")) ].

(** The text
    {"questions":[{"id":"mine","type":"open-ended","text":"Why?","options"
    :["x"],"correctAnswer":"Because"},{"type":"true-false","text":"Sky is
    blue","options":["A. True","B. False"],"correctAnswer":"A"}]} *)
Definition sampleReplyBody : jsstring :=
  [123; 34; 113; 117; 101; 115; 116; 105; 111; 110; 115; 34; 58; 91; 123;
   34; 105; 100; 34; 58; 34; 109; 105; 110; 101; 34; 44; 34; 116; 121;
   112; 101; 34; 58; 34; 111; 112; 101; 110; 45; 101; 110; 100; 101; 100;
   34; 44; 34; 116; 101; 120; 116; 34; 58; 34; 87; 104; 121; 63; 34; 44;
   34; 111; 112; 116; 105; 111; 110; 115; 34; 58; 91; 34; 120; 34; 93;
   44; 34; 99; 111; 114; 114; 101; 99; 116; 65; 110; 115; 119; 101; 114;
   34; 58; 34; 66; 101; 99; 97; 117; 115; 101; 34; 125; 44; 123; 34; 116;
   121; 112; 101; 34; 58; 34; 116; 114; 117; 101; 45; 102; 97; 108; 115;
   101; 34; 44; 34; 116; 101; 120; 116; 34; 58; 34; 83; 107; 121; 32;
   105; 115; 32; 98; 108; 117; 101; 34; 44; 34; 111; 112; 116; 105; 111;
   110; 115; 34; 58; 91; 34; 65; 46; 32; 84; 114; 117; 101; 34; 44; 34;
   66; 46; 32; 70; 97; 108; 115; 101; 34; 93; 44; 34; 99; 111; 114; 114;
   101; 99; 116; 65; 110; 115; 119; 101; 114; 34; 58; 34; 65; 34; 125;
   93; 125]%N.

Definition sampleReplyRecords : list jsval :=
  [ VObj [ (js "id", VStr (js "mine"));
           (js "type", VStr QuestionType.OpenEnded);
           (js "text", VStr (js "Why?"));
           (js "options", VArr [VStr (js "x")]);
           (js "correctAnswer", VStr (js "Because")) ];
    VObj [ (js "type", VStr QuestionType.TrueFalse);
           (js "text", VStr (js "Sky is blue"));
           (js "options", VArr [VStr (js "A. True"); VStr (js "B. False")]);
           (js "correctAnswer", VStr (js "A")) ] ].

Definition sampleReplyProps : list (jsstring * jsval) :=
  [ (js "questions", VArr sampleReplyRecords) ].

(** The reply as generative services tend to send it: fenced. *)
Definition sampleReply : jsstring :=
  backticks ++ js "json" ++ [10%N] ++ sampleReplyBody ++ [10%N] ++ backticks.

Definition sampleTable : list (jsstring * jsval) :=
  [ (sampleRecordText, sampleRecordValue);
    (sampleReplyBody, VObj sampleReplyProps);
    (js "null", VNull);
    (js "[]", VArr []);
    (js "[null]", VArr [VNull]) ].

Definition sampleQuiz : QuizState :=
  mkQuiz 1 false (Some (js "A. Apple")) false.

Definition submittedExam : ExamState :=
  mkExam 0 sampleAnswers true [js "q1"; js "q2"] (Some 33%Z).

(* =================================================================== *)
(** ** The answer matcher: proofs *)
(* =================================================================== *)

Lemma eqb_eq a b : eqb a b = true <-> a = b.
Proof. unfold eqb. rewrite bool_decide_eq_true. reflexivity. Qed.

Lemma dropWhile_split p s :
  exists pre, s = pre ++ dropWhile p s /\ Forall (fun c => p c = true) pre.
Proof.
  induction s as [|c s IH]; simpl.
  - exists []. split; [reflexivity | constructor].
  - destruct (p c) eqn:Hc.
    + destruct IH as (pre & Hs & Hpre).
      exists (c :: pre). split; [simpl; congruence | constructor; assumption].
    + exists []. split; [reflexivity | constructor].
Qed.

Lemma dropWhile_clearFront p s : clearFront p (dropWhile p s).
Proof.
  induction s as [|c s IH]; simpl; [exact I|].
  destruct (p c) eqn:Hc; [exact IH | simpl; exact Hc].
Qed.

Lemma dropWhile_id p s : clearFront p s -> dropWhile p s = s.
Proof. destruct s as [|c s]; simpl; [reflexivity|]. intros ->. reflexivity. Qed.

Lemma trim_trimmed s : trimmed (trim s).
Proof.
  unfold trimmed, trim, trimEnd, trimStart.
  set (u := dropWhile isWhiteSpace s).
  assert (Hu : clearFront isWhiteSpace u) by apply dropWhile_clearFront.
  split.
  - destruct (dropWhile_split isWhiteSpace (rev u)) as (pre & Hrev & Hpre).
    set (d := dropWhile isWhiteSpace (rev u)) in *.
    assert (Hu' : u = rev d ++ rev pre).
    { rewrite <- rev_app_distr, <- Hrev, rev_involutive. reflexivity. }
    destruct (rev d) as [|x r] eqn:Hd; [exact I|].
    rewrite Hu' in Hu. simpl in *. exact Hu.
  - rewrite rev_involutive. apply dropWhile_clearFront.
Qed.

Lemma trimmed_trim s : trimmed s -> trim s = s.
Proof.
  intros [H1 H2]. unfold trim, trimEnd, trimStart.
  rewrite (dropWhile_id _ s H1), (dropWhile_id _ (rev s) H2).
  apply rev_involutive.
Qed.

Lemma isWhiteSpace_isPrefixSep x : isWhiteSpace x = true -> isPrefixSep x = true.
Proof. unfold isPrefixSep. intros ->. apply orb_true_r. Qed.

Lemma clearFront_sep_ws s : clearFront isPrefixSep s -> clearFront isWhiteSpace s.
Proof.
  destruct s as [|x s]; simpl; [intros _; exact I|].
  intros H. destruct (isWhiteSpace x) eqn:E; [|reflexivity].
  apply isWhiteSpace_isPrefixSep in E. congruence.
Qed.

(** A suffix of a trimmed string that starts with no white space is
    trimmed. *)
Lemma trimmed_suffix pre r :
  trimmed (pre ++ r) -> clearFront isWhiteSpace r -> trimmed r.
Proof.
  intros [_ H2] Hr. split; [exact Hr|].
  rewrite rev_app_distr in H2.
  destruct (rev r) as [|x t] eqn:E; [exact I|].
  simpl in *. exact H2.
Qed.

Lemma stripPrefix_trimmed s : trimmed s -> trimmed (stripPrefix s).
Proof.
  intros Hs. unfold stripPrefix.
  destruct s as [|x s']; [exact Hs|].
  destruct (isAlnum x); [|exact Hs].
  destruct (dropWhile_split isAlnum (x :: s')) as (pre1 & H1 & _).
  destruct (dropWhile isAlnum (x :: s')) as [|y rest]; [exact Hs|].
  destruct (isPrefixSep y); [|exact Hs].
  destruct (dropWhile_split isPrefixSep rest) as (pre2 & H2 & _).
  apply (trimmed_suffix (pre1 ++ y :: pre2)).
  - rewrite <- app_assoc. simpl. rewrite <- H2, <- H1. exact Hs.
  - apply clearFront_sep_ws, dropWhile_clearFront.
Qed.

(** On a trimmed string, [getContent] is the removal of the prefix: its
    final [trim] has nothing to remove. *)
Lemma getContent_trim s : getContent (trim s) = stripPrefix (trim s).
Proof.
  unfold getContent. apply trimmed_trim, stripPrefix_trimmed, trim_trimmed.
Qed.

Lemma truthy_true s : truthy s = true <-> s <> [].
Proof. destruct s; simpl; split; congruence. Qed.

(** The chain of early returns of [isMatch] as one boolean formula. *)
Lemma isMatch_unfold opt correct :
  isMatch opt correct =
  truthy opt && truthy correct &&
  (let o := trim opt in
   let c := trim correct in
   eqb o c
   || eqb (toLowerCase o) (toLowerCase c)
   || (isSingleLetter c && bool_decide (getPrefix o = Some (toUpperCase c)))
   || (isSingleLetter o && bool_decide (getPrefix c = Some (toUpperCase o)))
   || (truthy (getContent o) && truthy (getContent c)
       && eqb (toLowerCase (getContent o)) (toLowerCase (getContent c)))).
Proof.
  unfold isMatch. cbv zeta.
  destruct (truthy opt), (truthy correct); simpl; try reflexivity.
  destruct (eqb (trim opt) (trim correct)); simpl; [reflexivity|].
  destruct (eqb (toLowerCase (trim opt)) (toLowerCase (trim correct)));
    simpl; [reflexivity|].
  destruct (isSingleLetter (trim correct) && _); simpl; [reflexivity|].
  destruct (isSingleLetter (trim opt) && _); simpl; [reflexivity|].
  destruct (truthy (getContent (trim opt)) && _ && _); reflexivity.
Qed.

Section CaseConversion.

(** On Basic Latin letters the two case conversions identify the same
    pairs; this is all the proofs below use of them. *)
Hypothesis letter_case :
  forall x y, isLetter x = true -> isLetter y = true ->
    (toUpperCase [x] = toUpperCase [y] <-> toLowerCase [x] = toLowerCase [y]).

Lemma prefix_test single other :
  isSingleLetter single
    && bool_decide (getPrefix other = Some (toUpperCase single)) = true
  <-> letterMatchesPrefix single other.
Proof using Type letter_case.
  unfold letterMatchesPrefix, isSingleLetter, letterOf, getPrefix,
    letterPrefix, eqIgnoreCase.
  rewrite andb_true_iff, bool_decide_eq_true.
  split.
  - intros [Hs Hp].
    destruct single as [|x [|? ?]]; try discriminate.
    destruct other as [|p [|y ?]]; try discriminate.
    destruct (isLetter p && isPrefixSep y) eqn:E; [|discriminate].
    apply andb_true_iff in E as [Ep _].
    exists x, p. rewrite Hs. repeat split.
    apply letter_case; [assumption..|]. congruence.
  - intros (x & p & Hx & Hp & Hcase).
    destruct single as [|x' [|? ?]]; try discriminate.
    destruct (isLetter x') eqn:Ex; [|discriminate].
    injection Hx as ->.
    destruct other as [|p' [|y ?]]; try discriminate.
    destruct (isLetter p' && isPrefixSep y) eqn:E; [|discriminate].
    injection Hp as ->.
    apply andb_true_iff in E as [Ep _].
    split; [reflexivity|]. f_equal.
    apply letter_case; [assumption..|]. congruence.
Qed.

(** C1 (amended): [isMatch] answers true exactly when both strings are
    non-empty and, after trimming, they are equal ignoring case, or one
    is a single letter equal ignoring case to the letter prefix of the
    other, or their contents after stripping the letter/number prefix
    are both non-empty and equal ignoring case; it answers false for
    every other pair. *)
Theorem isMatch_true_iff opt correct :
  isMatch opt correct = true <-> matches_amended opt correct.
Proof using Type letter_case.
  rewrite isMatch_unfold. unfold matches_amended. cbv zeta.
  rewrite !andb_true_iff, !orb_true_iff, !truthy_true, !prefix_test,
    !getContent_trim, !andb_true_iff, !truthy_true, !eqb_eq.
  unfold eqIgnoreCase.
  split.
  - intros [[Ho Hc] H]. split; [exact Ho|]. split; [exact Hc|].
    destruct H as [[[[H|H]|H]|H]|H].
    + left. rewrite H. reflexivity.
    + left. exact H.
    + right. left. exact H.
    + right. right. left. exact H.
    + right. right. right. destruct H as [[H1 H2] H3]. repeat split; assumption.
  - intros (Ho & Hc & H). split; [split; assumption|].
    destruct H as [H|[H|[H|H]]].
    + left. left. left. right. exact H.
    + left. left. right. exact H.
    + left. right. exact H.
    + right. destruct H as (H1 & H2 & H3). repeat split; assumption.
Qed.

End CaseConversion.

(* =================================================================== *)
(** ** The exam runner: proofs *)
(* =================================================================== *)

Lemma isMatch_empty c : isMatch [] c = false.
Proof. reflexivity. Qed.

(** One turn of the grading loop on a question it can go through. *)
Lemma gradeOne_gradable ans n w q :
  gradable ans q ->
  gradeOne ans (n, w) q
  = Some (if answeredCorrectly ans q then (S n, w) else (n, w ++ [id q])).
Proof.
  unfold gradable, gradeOne, readAnswer, answeredCorrectly. intros Hg.
  destruct (ans !! id q) as [[|x a]|] eqn:E.
  - reflexivity.
  - cbn [answerTruthy truthy isMatchAnswer].
    destruct (isMatch (x :: a) (correctAnswer q)); reflexivity.
  - destruct (namesPrototypeMember (id q)) eqn:P; [|reflexivity].
    rewrite (Hg eq_refl eq_refl). reflexivity.
Qed.



(** The grading loop, read off the list: the count of the matching
    answers and the ids of the other questions, in order. *)
Lemma gradeLoop_gradable ans qs :
  Forall (gradable ans) qs ->
  forall n w,
    gradeLoop ans qs (n, w)
    = Some (n + numCorrect qs ans,
            w ++ map id (List.filter
                           (fun q => negb (answeredCorrectly ans q)) qs)).
Proof.
  induction 1 as [|q qs Hq _ IH]; intros n w.
  - unfold numCorrect. simpl. rewrite Nat.add_0_r, app_nil_r. reflexivity.
  - cbn [gradeLoop]. rewrite (gradeOne_gradable ans n w q Hq).
    unfold numCorrect in *. cbn [List.filter].
    destruct (answeredCorrectly ans q); rewrite IH; cbn [negb length map].
    + do 2 f_equal. lia.
    + rewrite <- app_assoc. reflexivity.
Qed.


Lemma grade_spec qs ans :
  Forall (gradable ans) qs ->
  grade qs ans =
  Some (numCorrect qs ans,
        map id (List.filter (fun q => negb (answeredCorrectly ans q)) qs)).
Proof. intros H. unfold grade. rewrite (gradeLoop_gradable ans qs H). reflexivity. Qed.


Lemma handleSubmit_spec qs ex :
  Forall (gradable (answers ex)) qs ->
  handleSubmit qs ex
  = Some (mkExam 0 (answers ex) true
                 (map id (List.filter
                            (fun q => negb (answeredCorrectly (answers ex) q))
                            qs))
                 (finalScore (numCorrect qs (answers ex)) (length qs)),
          map id (List.filter
                    (fun q => negb (answeredCorrectly (answers ex) q)) qs)).
Proof. intros H. unfold handleSubmit. rewrite (grade_spec qs _ H). reflexivity. Qed.


Lemma filter_length_split {A} (f : A -> bool) (l : list A) :
  length (List.filter f l) + length (List.filter (fun x => negb (f x)) l) = length l.
Proof.
  induction l as [|x l IH]; simpl; [reflexivity|].
  destruct (f x); simpl; lia.
Qed.

Lemma numCorrect_le qs ans : numCorrect qs ans <= length qs.
Proof.
  unfold numCorrect.
  pose proof (filter_length_split (answeredCorrectly ans) qs). lia.
Qed.

Lemma scoreTable : scoreTableOk = true.
Proof. vm_compute. reflexivity. Qed.

Lemma finalScore_exact c n :
  1 <= n <= 39 -> c <= n -> finalScore c n = Some (roundedPercent c n).
Proof.
  intros Hn Hc. pose proof scoreTable as H. unfold scoreTableOk in H.
  rewrite forallb_forall in H.
  specialize (H n ltac:(apply in_seq; lia)).
  rewrite forallb_forall in H.
  specialize (H c ltac:(apply in_seq; lia)).
  destruct (finalScore c n) as [z|]; [|discriminate].
  apply Z.eqb_eq in H. congruence.
Qed.



(** X29: on a non-empty exam of at most 39 questions that the grading
    pass can go through, submitting completes, grades every question in
    one pass and sets as score the percentage of correct answers rounded
    to the nearest integer. *)
Theorem score_is_rounded_percentage qs ex :
  qs <> [] -> length qs <= 39 ->
  Forall (gradable (answers ex)) qs ->
  exists ex' wrong,
    handleSubmit qs ex = Some (ex', wrong)
    /\ score ex'
       = Some (roundedPercent (numCorrect qs (answers ex)) (length qs))
    /\ isSubmitted ex' = true.
Proof.
  intros Hne Hlen Hg. rewrite (handleSubmit_spec qs ex Hg).
  eexists _, _. split; [reflexivity|]. cbn [score isSubmitted].
  split; [|reflexivity].
  apply finalScore_exact.
  - destruct qs; [congruence | simpl in *; lia].
  - apply numCorrect_le.
Qed.

(* =================================================================== *)
(** ** The question bank: proofs *)
(* =================================================================== *)

Lemma Array_includes_In w x : Array_includes w x = true <-> In x w.
Proof.
  unfold Array_includes. rewrite existsb_exists. split.
  - intros (y & Hy & E). apply eqb_eq in E. congruence.
  - intros H. exists x. split; [exact H | apply eqb_eq; reflexivity].
Qed.

Lemma sameContent_withFlags m b q : sameContent q (withFlags m b q).
Proof. repeat split. Qed.

Lemma Forall2_map_self {A} (R : A -> A -> Prop) (f : A -> A) (l : list A) :
  (forall x, In x l -> R x (f x)) -> Forall2 R l (map f l).
Proof.
  induction l as [|x l IH]; intros H; simpl; constructor.
  - apply H. left. reflexivity.
  - apply IH. intros y Hy. apply H. right. exact Hy.
Qed.

Lemma Forall2_In_r {A B} (R : A -> B -> Prop) l k y :
  Forall2 R l k -> In y k -> exists x, In x l /\ R x y.
Proof.
  induction 1 as [|x y' l k HR _ IH]; intros Hy; [destruct Hy|].
  destruct Hy as [<- | Hy].
  - exists x. split; [left; reflexivity | exact HR].
  - destruct (IH Hy) as (x' & Hx' & HR'). exists x'. split; [right|]; assumption.
Qed.

(** What [handleExamComplete] does to each question of the bank. *)
Lemma handleExamComplete_questions w st :
  Forall2 (fun q q' =>
             (In (id q) w ->
              sameContent q q' /\ inMistakeBook q' = Some true
              /\ mastered q' = Some false)
             /\ (~ In (id q) w -> q' = q))
          (questions st) (questions (handleExamComplete w st)).
Proof.
  unfold handleExamComplete. destruct w as [|x w'].
  - rewrite <- (map_id (questions st)) at 2.
    apply Forall2_map_self. intros q _. split; [intros []|reflexivity].
  - cbn [questions saveQuestions].
    apply Forall2_map_self. intros q _.
    destruct (Array_includes (x :: w') (id q)) eqn:E.
    + apply Array_includes_In in E. split; [|intros Hn; destruct (Hn E)].
      intros _. split; [apply sameContent_withFlags | split; reflexivity].
    + split; [|reflexivity].
      intros H. apply Array_includes_In in H. congruence.
Qed.

Lemma submitExam_complete ex st :
  Forall (gradable (answers ex)) (examQuestions st) ->
  submitExam ex st
  = (mkExam 0 (answers ex) true
            (map id (List.filter
                       (fun q => negb (answeredCorrectly (answers ex) q))
                       (examQuestions st)))
            (finalScore (numCorrect (examQuestions st) (answers ex))
                        (length (examQuestions st))),
     handleExamComplete
       (map id (List.filter
                  (fun q => negb (answeredCorrectly (answers ex) q))
                  (examQuestions st)))
       st).
Proof.
  intros H. unfold submitExam.
  rewrite (handleSubmit_spec (examQuestions st) ex H). reflexivity.
Qed.

(** A submission either changes nothing in the application state or
    runs [handleExamComplete] on it. *)
Lemma submitExam_snd_cases ex st :
  snd (submitExam ex st) = st
  \/ exists w, snd (submitExam ex st) = handleExamComplete w st.
Proof.
  unfold submitExam.
  destruct (handleSubmit (examQuestions st) ex) as [[ex' w]|];
    [right; exists w | left]; reflexivity.
Qed.

(** C3: after an exam completes (the grading pass goes through on all
    its questions), every question of the bank whose id is among the
    missed ones is in the mistake book and not mastered, every other
    question is unchanged, and the missed items and the correct answers
    (the [correctCount] of the grading pass, which is the number of
    questions whose recorded answer matches) add up to the number of exam
    questions. *)
Theorem exam_complete_marks_missed ex st :
  Forall (gradable (answers ex)) (examQuestions st) ->
  isSubmitted (fst (submitExam ex st)) = true
  /\ Forall2 (fun q q' =>
                (In (id q) (wrongIds (fst (submitExam ex st))) ->
                 sameContent q q' /\ inMistakeBook q' = Some true
                 /\ mastered q' = Some false)
                /\ (~ In (id q) (wrongIds (fst (submitExam ex st))) -> q' = q))
             (questions st) (questions (snd (submitExam ex st)))
  /\ exists correctCount,
      grade (examQuestions st) (answers ex)
      = Some (correctCount, wrongIds (fst (submitExam ex st)))
      /\ length (wrongIds (fst (submitExam ex st))) + correctCount
         = length (examQuestions st)
      /\ correctCount = numCorrect (examQuestions st) (answers ex).
Proof.
  intros Hg. rewrite (submitExam_complete ex st Hg). cbn [fst snd wrongIds].
  split; [reflexivity|].
  split; [apply handleExamComplete_questions|].
  exists (numCorrect (examQuestions st) (answers ex)).
  split; [apply grade_spec; exact Hg|]. split; [|reflexivity].
  rewrite length_map. unfold numCorrect.
  pose proof (filter_length_split (answeredCorrectly (answers ex))
                                  (examQuestions st)).
  lia.
Qed.

Lemma numCorrect_le_answered qs ans :
  numCorrect qs ans <= length (List.filter (answered ans) qs).
Proof.
  unfold numCorrect. induction qs as [|q qs IH]; simpl; [lia|].
  unfold answeredCorrectly at 1, answered at 1.
  destruct (ans !! id q) as [[|x a]|]; simpl; try lia.
  destruct (isMatch (x :: a) (correctAnswer q)); simpl; lia.
Qed.

(** X30: on an exam that the grading pass can go through, a question
    with no recorded answer, or with the empty string as its answer, is
    counted as wrong by the pass itself: its id is in the missed list the
    pass builds and hands to [onComplete], the count of correct answers
    and the missed list add up to the number of questions, the count is
    at most the number of questions that were answered at all, the score
    is computed from that count, and every question of the bank with that
    id ends up in the mistake book.  Submitting asks for no complete
    answer sheet. *)
Theorem unanswered_is_counted_wrong ex st q :
  Forall (gradable (answers ex)) (examQuestions st) ->
  In q (examQuestions st) ->
  answers ex !! id q = None \/ answers ex !! id q = Some [] ->
  exists correctCount wrong,
    grade (examQuestions st) (answers ex) = Some (correctCount, wrong)
    /\ In (id q) wrong
    /\ correctCount + length wrong = length (examQuestions st)
    /\ correctCount
       <= length (List.filter (answered (answers ex)) (examQuestions st))
    /\ wrongIds (fst (submitExam ex st)) = wrong
    /\ score (fst (submitExam ex st))
       = finalScore correctCount (length (examQuestions st))
    /\ (forall b, In b (questions (snd (submitExam ex st))) ->
                  id b = id q ->
                  inMistakeBook b = Some true /\ mastered b = Some false).
Proof.
  intros Hg Hq Hans.
  assert (Hwrong : answeredCorrectly (answers ex) q = false).
  { unfold answeredCorrectly. destruct Hans as [-> | ->]; reflexivity. }
  set (wrong := map id (List.filter
                          (fun q => negb (answeredCorrectly (answers ex) q))
                          (examQuestions st))).
  assert (Hin : In (id q) wrong).
  { apply in_map, filter_In. split; [exact Hq|]. rewrite Hwrong. reflexivity. }
  exists (numCorrect (examQuestions st) (answers ex)), wrong.
  rewrite (submitExam_complete ex st Hg). cbn [fst snd wrongIds score].
  split; [apply grade_spec; exact Hg|]. split; [exact Hin|].
  split.
  { unfold wrong. rewrite length_map. unfold numCorrect.
    apply filter_length_split. }
  split; [apply numCorrect_le_answered|].
  split; [reflexivity|]. split; [reflexivity|].
  intros b Hb Hid. fold wrong in Hb.
  pose proof (handleExamComplete_questions wrong st) as HF.
  destruct (Forall2_In_r _ _ _ b HF Hb) as (q0 & _ & Hmark & Hkeep).
  assert (Hq0 : In (id q0) wrong).
  { destruct (in_dec (fun a b : jsstring => decide (a = b)) (id q0) wrong)
      as [H|H]; [exact H|].
    exfalso. apply H. rewrite <- (Hkeep H), Hid. exact Hin. }
  destruct (Hmark Hq0) as (_ & H1 & H2). split; assumption.
Qed.

Lemma mark_questions (m b : bool) i l :
  Forall2 (fun q q' =>
             (id q = i ->
              sameContent q q' /\ mastered q' = Some m
              /\ inMistakeBook q' = Some b)
             /\ (id q <> i -> q' = q))
          l (map (fun q => if eqb (id q) i then withFlags m b q else q) l).
Proof.
  apply Forall2_map_self. intros q _.
  destruct (eqb (id q) i) eqn:E.
  - apply eqb_eq in E. split; [|intros Hn; destruct (Hn E)].
    intros _. split; [apply sameContent_withFlags | split; reflexivity].
  - split; [|reflexivity].
    intros H. apply eqb_eq in H. congruence.
Qed.

(** C5 (amended): the two flags are written together.  Marking a
    question mastered sets [mastered] and clears [inMistakeBook]; marking
    it as a mistake sets [inMistakeBook] and clears [mastered]; its other
    fields, and every other question, are unchanged. *)
Theorem flags_written_together i st :
  Forall2 (fun q q' =>
             (id q = i ->
              sameContent q q' /\ mastered q' = Some true
              /\ inMistakeBook q' = Some false)
             /\ (id q <> i -> q' = q))
          (questions st) (questions (handleMasterQuestion i st))
  /\ Forall2 (fun q q' =>
                (id q = i ->
                 sameContent q q' /\ mastered q' = Some false
                 /\ inMistakeBook q' = Some true)
                /\ (id q <> i -> q' = q))
             (questions st) (questions (handleMistake i st)).
Proof. split; apply mark_questions. Qed.

(** [saveQuestions] leaves the slot in step with the list. *)
Lemma saveQuestions_persisted qs st : persisted (saveQuestions qs st).
Proof. unfold persisted, saveQuestions. simpl. apply lookup_insert_eq. Qed.

Lemma handleExamComplete_saved w st :
  persisted (handleExamComplete w st) \/ handleExamComplete w st = st.
Proof.
  destruct w; [right; reflexivity | left; apply saveQuestions_persisted].
Qed.

(** C8: import, mark-mastered, mark-mistake and a confirmed delete leave
    the slot [flashmaster_questions] equal to the serialization of the
    question list; a declined delete and an exam without missed items
    change nothing at all; so every operation that changes the list
    leaves the slot equal to its serialization, and none breaks that
    equality. *)
Theorem storage_mirrors_questions st :
  (forall newQs, persisted (handleImport newQs st))
  /\ (forall i, persisted (handleMasterQuestion i st))
  /\ (forall i, persisted (handleMistake i st))
  /\ (forall i, persisted (handleDelete true i st))
  /\ (forall i, handleDelete false i st = st)
  /\ (forall ex,
        let st' := snd (submitExam ex st) in
        (questions st' <> questions st -> persisted st')
        /\ (persisted st -> persisted st'))
  /\ (forall w,
        let st' := handleExamComplete w st in
        (w <> [] -> persisted st')
        /\ (questions st' <> questions st -> persisted st')
        /\ (persisted st -> persisted st')).
Proof.
  split; [intros; apply saveQuestions_persisted|].
  split; [intros; apply saveQuestions_persisted|].
  split; [intros; apply saveQuestions_persisted|].
  split; [intros; apply saveQuestions_persisted|].
  split; [reflexivity|].
  split.
  - intros ex st'. subst st'.
    destruct (submitExam_snd_cases ex st) as [H'|[w Hw]].
    + rewrite H'. split; [intros Hn; destruct (Hn eq_refl) | intros Hp; exact Hp].
    + rewrite Hw. destruct (handleExamComplete_saved w st) as [H'|H'].
      * split; intros _; exact H'.
      * rewrite H'.
        split; [intros Hn; destruct (Hn eq_refl) | intros Hp; exact Hp].
  - intros w st'. subst st'.
    split; [destruct w; [congruence | intros _; apply saveQuestions_persisted]|].
    destruct (handleExamComplete_saved w st) as [H'|H'].
    + split; intros _; exact H'.
    + rewrite H'. split; [intros Hn; destruct (Hn eq_refl) | intros Hp; exact Hp].
Qed.

Section Shuffle.

(** The engine's sort rearranges the elements it is given. *)
Hypothesis sortRandomly_permutes :
  forall r l, Permutation (sortRandomly r l) l.

(** C4: on a non-empty bank, starting a mock exam selects exactly
    min(30, bank size) questions, each of them from the bank, and no
    entry of the bank twice.  The selection is the random one: it is the
    front of the list that the random sort returns, the rest of that list
    completes it to a rearrangement of the bank.  The bank itself stays
    as it is and the screen changes to the exam. *)
Theorem startMockExam_sample r st :
  questions st <> [] ->
  let selected := examQuestions (startMockExam r st) in
  length selected = Nat.min 30 (length (questions st))
  /\ (forall q, In q selected -> In q (questions st))
  /\ (exists rest, sortRandomly r (questions st) = selected ++ rest
                   /\ Permutation (selected ++ rest) (questions st))
  /\ (List.NoDup (questions st) -> List.NoDup selected)
  /\ mode (startMockExam r st) = MockExam
  /\ questions (startMockExam r st) = questions st.
Proof using Type sortRandomly_permutes.
  intros Hne selected. subst selected. unfold startMockExam.
  destruct (questions st) as [|q0 bank] eqn:Hbank; [congruence|].
  cbn [examQuestions setMode setExamQuestions mode questions].
  set (l := q0 :: bank). set (count := Nat.min 30 (length l)).
  pose proof (sortRandomly_permutes r l) as Hperm.
  pose proof (firstn_skipn count (sortRandomly r l)) as Hsplit.
  split; [rewrite length_firstn, (Permutation_length Hperm); lia|].
  split.
  { intros q Hq. apply (Permutation_in _ Hperm).
    rewrite <- Hsplit. apply in_or_app. left. exact Hq. }
  split.
  { exists (skipn count (sortRandomly r l)). rewrite Hsplit.
    split; [reflexivity | exact Hperm]. }
  split.
  { intros Hnd. apply (Permutation_NoDup (Permutation_sym Hperm)) in Hnd.
    rewrite <- Hsplit in Hnd. apply NoDup_app_remove_r in Hnd. exact Hnd. }
  split; [reflexivity | exact Hbank].
Qed.

End Shuffle.

(** Marking keeps the two flags apart. *)
Lemma withFlags_consistent m b q :
  andb m b = false -> flagsConsistent (withFlags m b q).
Proof.
  unfold flagsConsistent. simpl. intros H [Hm Hb].
  injection Hm as ->. injection Hb as ->. discriminate.
Qed.

Lemma map_mark_consistent (test : Question -> bool) m b l :
  andb m b = false ->
  Forall flagsConsistent l ->
  Forall flagsConsistent (map (fun q => if test q then withFlags m b q else q) l).
Proof.
  intros Hmb. induction 1 as [|q l Hq _ IH]; simpl; constructor; [|exact IH].
  destruct (test q); [apply withFlags_consistent; exact Hmb | exact Hq].
Qed.

(* =================================================================== *)
(** ** The importers: proofs *)
(* =================================================================== *)

Lemma getProp_setProp_eq k v props : getProp k (setProp k v props) = v.
Proof.
  induction props as [|[k' v'] props IH]; simpl.
  - unfold eqb. rewrite bool_decide_eq_true_2; reflexivity.
  - destruct (eqb k' k) eqn:E; simpl.
    + unfold eqb. rewrite bool_decide_eq_true_2; reflexivity.
    + rewrite E. exact IH.
Qed.

Lemma getProp_setProp_ne k k' v props :
  k <> k' -> getProp k (setProp k' v props) = getProp k props.
Proof.
  intros Hne. induction props as [|[k0 v0] props IH]; simpl.
  - unfold eqb. rewrite bool_decide_eq_false_2; [reflexivity | congruence].
  - destruct (eqb k0 k') eqn:E; simpl.
    + apply eqb_eq in E. subst k0.
      unfold eqb. rewrite !bool_decide_eq_false_2; congruence.
    + destruct (eqb k0 k); [reflexivity | exact IH].
Qed.

(** Reading a property back through the writes of an object literal. *)
Ltac read_props :=
  repeat first
    [ rewrite getProp_setProp_eq
    | rewrite getProp_setProp_ne by (vm_compute; discriminate) ].

Lemma formatUUID_nonempty bits : formatUUID bits <> [].
Proof.
  unfold formatUUID. intros H.
  apply (f_equal (@length N)) in H.
  rewrite !length_app in H. simpl in H. lia.
Qed.

(** The flags of the typed view are those the object carries. *)
Lemma asQuestion_flags props q m b :
  asQuestion (VObj props) = Some q ->
  getProp (js "mastered") props = VBool m ->
  getProp (js "inMistakeBook") props = VBool b ->
  mastered q = Some m /\ inMistakeBook q = Some b.
Proof.
  unfold asQuestion. intros H Hm Hb. rewrite Hm, Hb in H.
  simplify_option_eq. split; reflexivity.
Qed.

Lemma mapM__Forall2 {A B} (f : A -> M B) xs :
  forall k ys k',
    mapM_ f xs k = (Some ys, k') ->
    Forall2 (fun x y => exists k1 k2, f x k1 = (Some y, k2)) xs ys.
Proof.
  induction xs as [|x xs IH]; intros k ys k' H.
  - injection H as <- _. constructor.
  - cbn [mapM_] in H. unfold bind in H.
    destruct (f x k) as [[y|] k1] eqn:Hx; [|discriminate].
    destruct (mapM_ f xs k1) as [[ys'|] k2] eqn:Hxs; [|discriminate].
    injection H as <- _. constructor; [eauto | eapply IH; eauto].
Qed.

Lemma validQuestion_flags e k v k' q :
  validQuestion e k = (Some v, k') -> asQuestion v = Some q ->
  flagsCleared q.
Proof.
  unfold validQuestion, bind, lift, ret, throw, randomUUID. intros H Hq.
  destruct (member e (js "id")) as [qid|]; [|discriminate].
  destruct (member e (js "type")) as [qtype|];
    [|destruct (toBoolean qid); discriminate].
  destruct (toBoolean qid); injection H as <- _;
    (eapply asQuestion_flags; [exact Hq | read_props; reflexivity ..]).
Qed.

Lemma generatedQuestion_flags e k v k' q :
  generatedQuestion e k = (Some v, k') -> asQuestion v = Some q ->
  flagsCleared q.
Proof.
  unfold generatedQuestion, bind, lift, ret, throw, randomUUID.
  intros H Hq.
  destruct (member e (js "type")) as [qtype|]; [|discriminate].
  assert (exists opts,
             v = VObj (setProp (js "options") opts
                      (setProp (js "inMistakeBook") (VBool false)
                      (setProp (js "mastered") (VBool false)
                      (setProp (js "id") (VStr (formatUUID (randomBits k)))
                               (spread e)))))) as [opts ->].
  { destruct qtype as [| |?|?|t|?|?];
      try (destruct (member e (js "options")); [|discriminate];
           injection H as <- _; eauto).
    destruct (eqb t QuestionType.OpenEnded);
      [injection H as <- _; eauto|].
    destruct (member e (js "options")); [|discriminate].
    injection H as <- _; eauto. }
  eapply asQuestion_flags; [exact Hq | read_props; reflexivity ..].
Qed.

(** Every question an import adds has both flags cleared. *)
Lemma imported_flags (f : jsval -> M jsval) elems k vs k' qs :
  (forall e k v k' q,
      f e k = (Some v, k') -> asQuestion v = Some q -> flagsCleared q) ->
  mapM_ f elems k = (Some vs, k') ->
  mapM asQuestion vs = Some qs ->
  Forall flagsCleared qs.
Proof.
  intros Hf Hmap Hcast.
  apply mapM__Forall2 in Hmap. apply mapM_Some in Hcast.
  revert qs Hcast. induction Hmap as [|e v elems vs (k1 & k2 & He) _ IH];
    intros qs Hcast; inversion Hcast; subst; constructor; eauto.
Qed.

Lemma isSome_true {A} (o : option A) : isSome o = true -> exists a, o = Some a.
Proof. destruct o; [eauto | discriminate]. Qed.

(** The importer's callback on a question record: the object it builds
    conforms to [Question], and is the record with its flags cleared,
    its id kept or drawn, its type kept or defaulted. *)
Lemma validQuestion_record e k :
  isQuestionRecord e = true ->
  exists v q k',
    validQuestion e k = (Some v, k') /\ asQuestion v = Some q
    /\ importedFrom e q.
Proof.
  intros H. destruct e as [| | | | | |props]; try discriminate.
  cbn [isQuestionRecord] in H.
  apply andb_true_iff in H as [H Htg]. apply andb_true_iff in H as [H Hex].
  apply andb_true_iff in H as [H Hca]. apply andb_true_iff in H as [H Hop].
  apply andb_true_iff in H as [H Htx]. apply andb_true_iff in H as [Hid Hty].
  apply isSome_true in Htg as [tg Htg]. apply isSome_true in Hex as [ex Hex].
  apply isSome_true in Hca as [ca Hca]. apply isSome_true in Hop as [op Hop].
  apply isSome_true in Htx as [tx Htx]. apply isSome_true in Hid as [oi Hid].
  apply isSome_true in Hty as [ot Hty].
  unfold validQuestion, bind, lift, ret, randomUUID, importedFrom,
    flagsCleared.
  cbn [member field].
  destruct (getProp (js "id") props) as [| | | |si| |] eqn:Eid;
    try discriminate Hid.
  all: destruct (getProp (js "type") props) as [| | | |st| |] eqn:Ety;
    try discriminate Hty.
  all: destruct (getProp (js "text") props) as [| | | |stx| |] eqn:Etx;
    try discriminate Htx.
  all: destruct (getProp (js "correctAnswer") props) as [| | | |sca| |] eqn:Eca;
    try discriminate Hca.
  all: cbn [toBoolean].
  all: try (destruct si as [|c0 si']; cbn [truthy]).
  all: try (destruct st as [|c1 st']; cbn [truthy]).
  all: eexists _, _, _; (split; [reflexivity|]).
  all: unfold asQuestion; cbn [spread]; read_props; rewrite ?Etx, ?Eca;
    cbn [asString];
    repeat match goal with
           | Ho : optional _ (getProp _ _) = Some _ |- _ =>
               rewrite Ho; clear Ho
           end;
    cbn [asBool optional mbind option_bind];
    (split; [reflexivity|]); cbn [id type text options correctAnswer
                                  explanation tags mastered inMistakeBook].
  all: repeat split; try congruence; try discriminate;
    try apply formatUUID_nonempty.
Qed.

Lemma json_records elems :
  Forall (fun e => isQuestionRecord e = true) elems ->
  forall k, exists vs qs k',
    mapM_ validQuestion elems k = (Some vs, k')
    /\ mapM asQuestion vs = Some qs
    /\ Forall2 importedFrom elems qs.
Proof.
  induction 1 as [|e elems He _ IH]; intros k.
  - exists [], [], k. repeat split. constructor.
  - destruct (validQuestion_record e k He) as (v & q & k1 & Hv & Hq & Himp).
    destruct (IH k1) as (vs & qs & k2 & Hvs & Hqs & Hall).
    exists (v :: vs), (q :: qs), k2.
    split; [|split].
    + cbn [mapM_]. unfold bind. rewrite Hv, Hvs. reflexivity.
    + cbn [mapM]. rewrite Hq. cbn. rewrite Hqs. reflexivity.
    + constructor; assumption.
Qed.

(** C6: when the input parses as a JSON array of N question records,
    the JSON import appends exactly N questions to the bank, in order;
    each has both flags false, a non-empty id (the record's, or a fresh
    UUID), the record's type or 'open-ended' when it has none, and the
    record's other fields; the questions already there are unchanged. *)
Theorem json_import_appends imp k st elems :
  JSON_parse (inputText imp) = Some (VArr elems) ->
  Forall (fun e => isQuestionRecord e = true) elems ->
  exists imported k',
    handleJsonImport imp k st
    = Some (setError None imp, k', handleImport imported st)
    /\ questions (handleImport imported st) = questions st ++ imported
    /\ length imported = length elems
    /\ Forall2 importedFrom elems imported.
Proof.
  intros Hparse Hrec.
  destruct (json_records elems Hrec k) as (vs & qs & k' & Hvs & Hqs & Hall).
  exists qs, k'. split; [|split; [reflexivity|split]].
  - unfold handleJsonImport, parseJsonInput, bind, lift.
    rewrite Hparse. cbn [ret]. rewrite Hvs.
    unfold onImport. rewrite Hqs. reflexivity.
  - symmetry. eapply Forall2_length. exact Hall.
  - exact Hall.
Qed.

(** Without a "questions" array in the reply, the [try] of the service
    functions throws or yields no question. *)
Lemma parseReply_without_array reply k :
  ~ hasQuestionsArray reply ->
  exists k', parseReply reply k = (None, k')
             \/ parseReply reply k = (Some [], k').
Proof.
  intros Hno. unfold parseReply, bind, lift, ret, throw.
  destruct (JSON_parse (cleanJsonString reply)) as [parsed|] eqn:Hp;
    [|eauto].
  destruct parsed as [| |b|x|s|l|props]; cbn [member toBoolean mapM_ ret];
    eauto.
  destruct (getProp (js "questions") props) as [| |b|x|s|l|o] eqn:Hq;
    cbn [toBoolean mapM_ ret]; eauto.
  - destruct b; cbn [mapM_ ret]; eauto.
  - destruct (negb _); cbn [mapM_ ret]; eauto.
  - destruct (truthy s); cbn [mapM_ ret]; eauto.
  - exfalso. apply Hno. exists props, l. split; assumption.
Qed.

(** C7: when the service replies and the reply does not parse as a JSON
    object containing a "questions" array, the AI import (from a topic
    or from raw text) ends with an error message set for the user and
    the application state, the question bank with it, as it was. *)
Theorem ai_import_fails_closed apiKey sdk reply imp k st :
  truthy (trim (inputText imp)) = true ->
  callGemini apiKey sdk = Normal reply ->
  ~ hasQuestionsArray reply ->
  exists imp' k' msg,
    handleAiProcessing apiKey sdk imp k st = Some (imp', k', st)
    /\ error imp' = Some msg
    /\ In msg [errAiFormat; errAiParse; errAiNoQuestions]
    /\ isLoading imp' = false.
Proof.
  intros Hin Hreply Hno. unfold handleAiProcessing. rewrite Hin. cbn [negb].
  destruct (parseReply_without_array reply k Hno) as (k' & [Hp|Hp]).
  - destruct (activeTab imp);
      unfold generateQuestionsFromTopic, parseRawTextToQuestions,
        questionsFromReply;
      rewrite Hreply, Hp; eexists _, k', _;
      (split; [reflexivity|]); (split; [reflexivity|]);
      (split; [|reflexivity]); simpl;
      repeat (first [left; reflexivity | right]).
  - destruct (activeTab imp);
      unfold generateQuestionsFromTopic, parseRawTextToQuestions,
        questionsFromReply;
      rewrite Hreply, Hp; eexists _, k', _;
      (split; [reflexivity|]); (split; [reflexivity|]);
      (split; [|reflexivity]); simpl;
      repeat (first [left; reflexivity | right]).
Qed.

Lemma flagsCleared_consistent q : flagsCleared q -> flagsConsistent q.
Proof. intros [Hm Hb] [Hm' _]. congruence. Qed.

Lemma onImport_questions vs st st' :
  onImport vs st = Some st' ->
  exists qs, mapM asQuestion vs = Some qs
             /\ questions st' = questions st ++ qs.
Proof.
  unfold onImport. intros H.
  destruct (mapM asQuestion vs) as [qs|]; [|discriminate].
  injection H as <-. exists qs. split; reflexivity.
Qed.

(** What any completed JSON import leaves in the bank. *)
Lemma handleJsonImport_questions imp k st imp' k' st' :
  handleJsonImport imp k st = Some (imp', k', st') ->
  exists new, questions st' = questions st ++ new
              /\ Forall flagsCleared new.
Proof.
  unfold handleJsonImport, parseJsonInput, bind, lift. intros H.
  destruct (JSON_parse (inputText imp)) as [parsed|].
  - cbn [ret] in H.
    destruct (mapM_ validQuestion _ k) as [[vs|] k1] eqn:Hvs.
    + destruct (onImport vs st) as [st1|] eqn:Hon; [|discriminate].
      injection H as _ _ <-.
      destruct (onImport_questions _ _ _ Hon) as (qs & Hqs & ->).
      exists qs. split; [reflexivity|].
      eapply imported_flags; [apply validQuestion_flags | exact Hvs | exact Hqs].
    + injection H as _ _ <-. exists []. rewrite app_nil_r. split; constructor.
  - cbn [throw] in H. injection H as _ _ <-.
    exists []. rewrite app_nil_r. split; constructor.
Qed.

Lemma parseReply_flags reply k vs k' qs :
  parseReply reply k = (Some vs, k') ->
  mapM asQuestion vs = Some qs ->
  Forall flagsCleared qs.
Proof.
  unfold parseReply, bind, lift, throw. intros H Hqs.
  destruct (JSON_parse (cleanJsonString reply)) as [parsed|];
    [|discriminate].
  cbn [ret] in H.
  destruct (member parsed (js "questions")) as [qv|]; [|discriminate].
  cbn [ret] in H.
  destruct (if toBoolean qv then qv else VArr []) as [| | | | |elems|];
    try discriminate.
  eapply imported_flags; [apply generatedQuestion_flags | exact H | exact Hqs].
Qed.

(** What any completed AI import leaves in the bank. *)
Lemma handleAiProcessing_questions apiKey sdk imp k st imp' k' st' :
  handleAiProcessing apiKey sdk imp k st = Some (imp', k', st') ->
  exists new, questions st' = questions st ++ new
              /\ Forall flagsCleared new.
Proof.
  unfold handleAiProcessing. intros H.
  assert (Hnone : exists new : list Question,
             questions st = questions st ++ new /\ Forall flagsCleared new).
  { exists []. rewrite app_nil_r. split; constructor. }
  destruct (negb (truthy (trim (inputText imp))));
    [injection H as _ _ <-; exact Hnone|].
  assert (Hsvc : forall failure,
             match questionsFromReply failure (callGemini apiKey sdk) k with
             | (Normal qs, k') =>
                 match qs with
                 | [] => Some (setIsLoading false
                                 (setError (Some errAiNoQuestions)
                                    (setError None (setIsLoading true imp))),
                               k', st)
                 | _ :: _ =>
                     st' ← onImport qs st;
                     Some (setIsLoading false
                             (setError None (setIsLoading true imp)), k', st')
                 end
             | (Throws msg, k') =>
                 Some (setIsLoading false
                         (setError (Some msg)
                            (setError None (setIsLoading true imp))), k', st)
             end = Some (imp', k', st') ->
             exists new, questions st' = questions st ++ new
                         /\ Forall flagsCleared new).
  { intros failure H'. unfold questionsFromReply in H'.
    destruct (callGemini apiKey sdk) as [reply|msg];
      [|injection H' as _ _ <-; exact Hnone].
    destruct (parseReply reply k) as [[vs|] k1] eqn:Hp;
      [|injection H' as _ _ <-; exact Hnone].
    destruct vs as [|v vs]; [injection H' as _ _ <-; exact Hnone|].
    destruct (onImport (v :: vs) st) as [st1|] eqn:Hon; [|discriminate].
    cbn in H'. injection H' as _ _ <-.
    destruct (onImport_questions _ _ _ Hon) as (qs & Hqs & ->).
    exists qs. split; [reflexivity|].
    eapply parseReply_flags; eassumption. }
  destruct (activeTab imp); eapply Hsvc; exact H.
Qed.

Lemma Forall_consistent_app l new :
  Forall flagsConsistent l -> Forall flagsCleared new ->
  Forall flagsConsistent (l ++ new).
Proof.
  intros Hl Hnew. apply Forall_app. split; [exact Hl|].
  eapply Forall_impl; [exact Hnew | apply flagsCleared_consistent].
Qed.

(** C10: no operation that writes flags makes a question both mastered
    and in the mistake book.  Mark-mastered, mark-mistake and exam
    grading keep a bank free of such questions free of them, and every
    import path (from JSON, from a topic, from raw text) only appends
    questions with both flags false. *)
Theorem flags_stay_consistent st :
  Forall flagsConsistent (questions st) ->
  (forall i, Forall flagsConsistent (questions (handleMasterQuestion i st)))
  /\ (forall i, Forall flagsConsistent (questions (handleMistake i st)))
  /\ (forall w, Forall flagsConsistent (questions (handleExamComplete w st)))
  /\ (forall ex, Forall flagsConsistent (questions (snd (submitExam ex st))))
  /\ (forall imp k imp' k' st',
        handleJsonImport imp k st = Some (imp', k', st') ->
        Forall flagsConsistent (questions st')
        /\ exists new, questions st' = questions st ++ new
                       /\ Forall flagsCleared new)
  /\ (forall apiKey sdk imp k imp' k' st',
        handleAiProcessing apiKey sdk imp k st = Some (imp', k', st') ->
        Forall flagsConsistent (questions st')
        /\ exists new, questions st' = questions st ++ new
                       /\ Forall flagsCleared new).
Proof.
  intros Hst.
  assert (Hexam : forall w,
             Forall flagsConsistent (questions (handleExamComplete w st))).
  { intros w. unfold handleExamComplete. destruct w as [|x w]; [exact Hst|].
    cbn [questions saveQuestions].
    apply map_mark_consistent; [reflexivity | exact Hst]. }
  split; [|split; [|split; [|split; [|split]]]].
  - intros i. cbn [handleMasterQuestion questions saveQuestions].
    apply map_mark_consistent; [reflexivity | exact Hst].
  - intros i. cbn [handleMistake questions saveQuestions].
    apply map_mark_consistent; [reflexivity | exact Hst].
  - exact Hexam.
  - intros ex. destruct (submitExam_snd_cases ex st) as [H'|[w Hw]].
    + rewrite H'. exact Hst.
    + rewrite Hw. apply Hexam.
  - intros imp k imp' k' st' H.
    destruct (handleJsonImport_questions _ _ _ _ _ _ H) as (new & Hq & Hnew).
    split; [|eauto]. rewrite Hq. apply Forall_consistent_app; assumption.
  - intros apiKey sdk imp k imp' k' st' H.
    destruct (handleAiProcessing_questions _ _ _ _ _ _ _ _ H)
      as (new & Hq & Hnew).
    split; [|eauto]. rewrite Hq. apply Forall_consistent_app; assumption.
Qed.

(* =================================================================== *)
(** ** Further properties of the matcher *)
(* =================================================================== *)

Lemma eqb_sym a b : eqb a b = eqb b a.
Proof.
  unfold eqb. destruct (decide (a = b)) as [->|Hne].
  - reflexivity.
  - rewrite !bool_decide_eq_false_2; [reflexivity | congruence | exact Hne].
Qed.

(** X1: the matcher is symmetric, as the exam screen assumes when it
    highlights the correct option with the arguments swapped. *)
Theorem isMatch_symmetric a b : isMatch a b = isMatch b a.
Proof.
  rewrite !isMatch_unfold. cbv zeta.
  rewrite (eqb_sym (trim b) (trim a)),
    (eqb_sym (toLowerCase (trim b)) (toLowerCase (trim a))),
    (eqb_sym (toLowerCase (getContent (trim b)))
             (toLowerCase (getContent (trim a)))).
  destruct (truthy a), (truthy b), (eqb (trim a) (trim b)),
    (eqb (toLowerCase (trim a)) (toLowerCase (trim b))),
    (isSingleLetter (trim b)
     && bool_decide (getPrefix (trim a) = Some (toUpperCase (trim b)))),
    (isSingleLetter (trim a)
     && bool_decide (getPrefix (trim b) = Some (toUpperCase (trim a)))),
    (truthy (getContent (trim a))), (truthy (getContent (trim b))),
    (eqb (toLowerCase (getContent (trim a)))
         (toLowerCase (getContent (trim b))));
    reflexivity.
Qed.

Lemma dropWhile_app_all p w s :
  Forall (fun c => p c = true) w -> dropWhile p (w ++ s) = dropWhile p s.
Proof.
  induction 1 as [|c w Hc _ IH]; simpl; [reflexivity|].
  rewrite Hc. exact IH.
Qed.

Lemma dropWhile_app_front p s t :
  s <> [] -> clearFront p s -> dropWhile p (s ++ t) = s ++ t.
Proof.
  destruct s as [|x s]; [congruence|]. simpl. intros _ ->. reflexivity.
Qed.

Lemma Forall_rev_ws (w : jsstring) :
  blank w -> Forall (fun c => isWhiteSpace c = true) (rev w).
Proof.
  unfold blank. rewrite !List.Forall_forall. intros H c Hc.
  apply H. apply in_rev. exact Hc.
Qed.

(** Trimming removes blank padding around a trimmed string. *)
Lemma trim_pad w1 w2 s :
  blank w1 -> blank w2 -> trimmed s -> s <> [] -> trim (w1 ++ s ++ w2) = s.
Proof.
  intros H1 H2 [Hs Hr] Hne. unfold trim, trimStart, trimEnd.
  rewrite (dropWhile_app_all _ w1 _ H1).
  rewrite (dropWhile_app_front _ s w2 Hne Hs).
  rewrite rev_app_distr.
  rewrite (dropWhile_app_all _ (rev w2) _ (Forall_rev_ws w2 H2)).
  rewrite (dropWhile_id _ (rev s) Hr). apply rev_involutive.
Qed.

Lemma blank_trim w : blank w -> trim w = [].
Proof.
  intros H. unfold trim, trimStart, trimEnd.
  rewrite <- (app_nil_r w), (dropWhile_app_all _ w [] H). reflexivity.
Qed.

Lemma trim_nil_inv s : trim s <> [] -> s <> [].
Proof. intros H ->. apply H. reflexivity. Qed.

(** X2: blank padding around either string does not change the answer
    of the matcher. *)
Theorem isMatch_ignores_padding w1 w2 w3 w4 o c :
  blank w1 -> blank w2 -> blank w3 -> blank w4 ->
  trimmed o -> o <> [] -> trimmed c -> c <> [] ->
  isMatch (w1 ++ o ++ w2) (w3 ++ c ++ w4) = isMatch o c.
Proof.
  intros H1 H2 H3 H4 Ho Hno Hc Hnc.
  rewrite !isMatch_unfold. cbv zeta.
  rewrite (trim_pad w1 w2 o H1 H2 Ho Hno), (trim_pad w3 w4 c H3 H4 Hc Hnc),
    (trimmed_trim o Ho), (trimmed_trim c Hc).
  assert (Ht : forall w s t, s <> [] -> truthy (w ++ s ++ t) = true).
  { intros w s t Hs. apply truthy_true. intros E.
    apply app_eq_nil in E as [_ E]. apply app_eq_nil in E as [E _].
    exact (Hs E). }
  rewrite (Ht w1 o w2 Hno), (Ht w3 c w4 Hnc).
  destruct o; [congruence|]. destruct c; [congruence|]. reflexivity.
Qed.

(** X3: two non-empty strings made of white space only match each other:
    both trim to the empty string, and the exact comparison comes before
    every test for emptiness of the trimmed strings. *)
Theorem isMatch_blank_strings o c :
  o <> [] -> c <> [] -> blank o -> blank c -> isMatch o c = true.
Proof.
  intros Ho Hc Hbo Hbc. rewrite isMatch_unfold. cbv zeta.
  rewrite (blank_trim o Hbo), (blank_trim c Hbc).
  apply truthy_true in Ho, Hc. rewrite Ho, Hc. reflexivity.
Qed.

(* =================================================================== *)
(** ** Further properties of the exam runner *)
(* =================================================================== *)

Lemma in_map_id_unique (qs : list Question) q q' :
  List.NoDup (map id qs) -> In q qs -> In q' qs -> id q' = id q -> q' = q.
Proof.
  induction qs as [|x qs IH]; intros Hnd Hq Hq' Hid; [destruct Hq|].
  simpl in Hnd. apply NoDup_cons_iff in Hnd as [Hx Hnd].
  destruct Hq as [->|Hq], Hq' as [->|Hq'].
  - reflexivity.
  - exfalso. apply Hx. rewrite <- Hid. apply in_map. exact Hq'.
  - exfalso. apply Hx. rewrite Hid. apply in_map. exact Hq.
  - apply IH; assumption.
Qed.

(** X4: when the ids of the exam questions are pairwise different and
    the grading pass can go through on all of them, submitting completes
    and a question is in the list of missed items exactly when its
    recorded answer does not match (or is absent). *)
Theorem missed_iff_not_matched qs ex q :
  List.NoDup (map id qs) -> In q qs ->
  Forall (gradable (answers ex)) qs ->
  exists ex' wrong,
    handleSubmit qs ex = Some (ex', wrong)
    /\ wrongIds ex' = wrong
    /\ (In (id q) wrong <-> answeredCorrectly (answers ex) q = false).
Proof.
  intros Hnd Hq Hg. rewrite (handleSubmit_spec qs ex Hg).
  eexists _, _. split; [reflexivity|]. split; [reflexivity|].
  rewrite in_map_iff. split.
  - intros (q' & Hid & Hq'). apply filter_In in Hq' as [Hq' Hw].
    rewrite (in_map_id_unique qs q q' Hnd Hq Hq' Hid) in Hw.
    destruct (answeredCorrectly (answers ex) q); [discriminate | reflexivity].
  - intros Hw. exists q. split; [reflexivity|].
    apply filter_In. split; [exact Hq|]. rewrite Hw. reflexivity.
Qed.

Lemma scoreBounds : scoreBoundsOk = true.
Proof. vm_compute. reflexivity. Qed.

Lemma finalScore_bounds c n :
  1 <= n <= 39 -> c <= n ->
  exists z, finalScore c n = Some z
            /\ (0 <= z <= 100)%Z
            /\ (z = 100%Z <-> c = n)
            /\ (z = 0%Z <-> c = 0).
Proof.
  intros Hn Hc. pose proof scoreBounds as H. unfold scoreBoundsOk in H.
  rewrite forallb_forall in H.
  specialize (H n ltac:(apply in_seq; lia)).
  rewrite forallb_forall in H.
  specialize (H c ltac:(apply in_seq; lia)).
  destruct (finalScore c n) as [z|]; [|discriminate].
  exists z. split; [reflexivity|].
  apply andb_true_iff in H as [H H0]. apply andb_true_iff in H as [H H100].
  apply andb_true_iff in H as [Hlo Hhi].
  apply Z.leb_le in Hlo, Hhi.
  apply Bool.eqb_prop in H100, H0.
  split; [lia|]. split.
  - rewrite <- Z.eqb_eq, H100, Nat.eqb_eq. reflexivity.
  - rewrite <- Z.eqb_eq, H0, Nat.eqb_eq. reflexivity.
Qed.

(** X5: for a non-empty exam of at most 39 questions that the grading
    pass can go through, submitting completes and the score is an integer
    between 0 and 100; it is 100 exactly when no item is missed and 0
    exactly when every item is missed. *)
Theorem score_bounds qs ex :
  qs <> [] -> length qs <= 39 ->
  Forall (gradable (answers ex)) qs ->
  exists ex' wrong z,
    handleSubmit qs ex = Some (ex', wrong)
    /\ wrongIds ex' = wrong
    /\ score ex' = Some z
    /\ (0 <= z <= 100)%Z
    /\ (z = 100%Z <-> wrong = [])
    /\ (z = 0%Z <-> length wrong = length qs).
Proof.
  intros Hne Hlen Hg. rewrite (handleSubmit_spec qs ex Hg).
  assert (Hn : 1 <= length qs <= 39).
  { destruct qs; [congruence | simpl in *; lia]. }
  destruct (finalScore_bounds (numCorrect qs (answers ex)) (length qs) Hn
              (numCorrect_le qs (answers ex)))
    as (z & Hz & Hb & H100 & H0).
  eexists _, _, z. split; [reflexivity|]. cbn [wrongIds score].
  split; [reflexivity|]. split; [exact Hz|]. split; [exact Hb|].
  pose proof (filter_length_split (answeredCorrectly (answers ex)) qs) as Hs.
  unfold numCorrect in *.
  split.
  - rewrite H100. split.
    + intros E.
      destruct (List.filter (fun x => negb (answeredCorrectly (answers ex) x)) qs);
        [reflexivity | simpl in Hs; lia].
    + intros E. apply (f_equal (@length _)) in E.
      rewrite length_map in E. simpl in E. lia.
  - rewrite H0, length_map. lia.
Qed.

Lemma examStep_submitted qs ev ex :
  isSubmitted ex = true ->
  snd (examStep qs ev ex) = None
  /\ isSubmitted (fst (examStep qs ev ex)) = true
  /\ answers (fst (examStep qs ev ex)) = answers ex
  /\ wrongIds (fst (examStep qs ev ex)) = wrongIds ex
  /\ score (fst (examStep qs ev ex)) = score ex.
Proof.
  intros Hs. unfold examStep.
  destruct (nth_error qs (currentIndex ex)) as [cq|]; [|repeat split; exact Hs].
  destruct ev; cbn [fst snd].
  - unfold Exam_handleNext. destruct (_ <? _); repeat split; exact Hs.
  - unfold Exam_handlePrev. destruct (_ <? _); repeat split; exact Hs.
  - unfold handleOptionSelect. rewrite Hs. repeat split; exact Hs.
  - rewrite Hs. cbn [negb andb fst snd]. repeat split; exact Hs.
Qed.

Lemma exam_run_quiet qs evs ex :
  isSubmitted ex = true ->
  snd (examRun qs evs ex) = []
  /\ isSubmitted (fst (examRun qs evs ex)) = true
  /\ answers (fst (examRun qs evs ex)) = answers ex
  /\ wrongIds (fst (examRun qs evs ex)) = wrongIds ex
  /\ score (fst (examRun qs evs ex)) = score ex.
Proof.
  revert ex. induction evs as [|ev evs IH]; intros ex Hs.
  - repeat split. exact Hs.
  - cbn [examRun].
    destruct (examStep_submitted qs ev ex Hs) as (Hc & Hs1 & Ha & Hw & Hsc).
    destruct (examStep qs ev ex) as [ex1 call]. cbn [fst snd] in *.
    destruct (IH ex1 Hs1) as (Hc2 & Hs2 & Ha2 & Hw2 & Hsc2).
    destruct (examRun qs evs ex1) as [ex2 calls]. cbn [fst snd] in *.
    subst call calls. repeat split; congruence.
Qed.

(** X6: once the exam is submitted its result is final: whatever the
    user does next, the recorded answers, the missed items and the score
    stay as they are, and [onComplete] is not called again. *)
Theorem exam_result_is_final qs evs ex :
  isSubmitted ex = true ->
  snd (examRun qs evs ex) = []
  /\ isSubmitted (fst (examRun qs evs ex)) = true
  /\ answers (fst (examRun qs evs ex)) = answers ex
  /\ wrongIds (fst (examRun qs evs ex)) = wrongIds ex
  /\ score (fst (examRun qs evs ex)) = score ex.
Proof. apply exam_run_quiet. Qed.

Lemma handleSubmit_isSubmitted qs ex ex' w :
  handleSubmit qs ex = Some (ex', w) ->
  isSubmitted ex' = true /\ currentIndex ex' = 0.
Proof.
  unfold handleSubmit. destruct (grade _ _) as [[c wrong]|]; [|discriminate].
  intros H. injection H as <- _. split; reflexivity.
Qed.

(** X7: in any run of events on the exam screen, from any state,
    [onComplete] (and with it [handleExamComplete]) is called at most
    once. *)
Theorem onComplete_at_most_once qs evs ex :
  length (snd (examRun qs evs ex)) <= 1.
Proof.
  revert ex. induction evs as [|ev evs IH]; intros ex; [simpl; lia|].
  cbn [examRun].
  destruct (examStep qs ev ex) as [ex1 call] eqn:Hstep.
  destruct call as [w|].
  - assert (Hs1 : isSubmitted ex1 = true).
    { unfold examStep in Hstep.
      destruct (nth_error qs (currentIndex ex)); [|discriminate].
      destruct ev; try discriminate.
      destruct (negb (isSubmitted ex) && _); [|discriminate].
      destruct (handleSubmit qs ex) as [[ex' w']|] eqn:Hsub; [|discriminate].
      injection Hstep as <- _.
      exact (proj1 (handleSubmit_isSubmitted qs ex ex' w' Hsub)). }
    destruct (exam_run_quiet qs evs ex1 Hs1) as [Hq _].
    destruct (examRun qs evs ex1) as [ex2 calls]. cbn [snd] in *.
    subst calls. simpl. lia.
  - specialize (IH ex1).
    destruct (examRun qs evs ex1) as [ex2 calls]. exact IH.
Qed.

Lemma examStep_index qs ev ex :
  currentIndex ex < length qs ->
  currentIndex (fst (examStep qs ev ex)) < length qs.
Proof.
  intros Hi. unfold examStep.
  destruct (nth_error qs (currentIndex ex)) as [cq|]; [|exact Hi].
  destruct ev; cbn [fst].
  - unfold Exam_handleNext.
    destruct (S (currentIndex ex) <? length qs) eqn:E; [|exact Hi].
    apply Nat.ltb_lt in E. exact E.
  - unfold Exam_handlePrev.
    destruct (0 <? currentIndex ex); [|exact Hi]. simpl. lia.
  - unfold handleOptionSelect. destruct (isSubmitted ex); exact Hi.
  - destruct (negb (isSubmitted ex) && _); [|exact Hi].
    destruct (handleSubmit qs ex) as [[ex' w']|] eqn:Hsub; [|exact Hi].
    cbn [fst]. rewrite (proj2 (handleSubmit_isSubmitted qs ex ex' w' Hsub)). lia.
Qed.

(** X8: the index of the question shown never leaves the list: from an
    index inside the list, every run of events ends at an index inside
    the list, so a question is always there to show. *)
Theorem exam_index_in_range qs evs ex :
  currentIndex ex < length qs ->
  currentIndex (fst (examRun qs evs ex)) < length qs
  /\ exists q, nth_error qs (currentIndex (fst (examRun qs evs ex))) = Some q.
Proof.
  intros Hi.
  assert (H : currentIndex (fst (examRun qs evs ex)) < length qs).
  { revert ex Hi. induction evs as [|ev evs IH]; intros ex Hi; [exact Hi|].
    cbn [examRun]. pose proof (examStep_index qs ev ex Hi) as H1.
    destruct (examStep qs ev ex) as [ex1 call]. cbn [fst] in H1.
    specialize (IH ex1 H1).
    destruct (examRun qs evs ex1) as [ex2 calls]. exact IH. }
  split; [exact H|].
  destruct (nth_error qs (currentIndex (fst (examRun qs evs ex)))) as [q|] eqn:E;
    [eauto|].
  apply nth_error_None in E. lia.
Qed.

(** X9: before submission, choosing an answer records it under the id
    of the question shown and leaves the answers under other ids alone;
    choosing again replaces the earlier choice. *)
Theorem answer_is_recorded q opt ex :
  isSubmitted ex = false ->
  answers (handleOptionSelect q opt ex) !! id q = Some opt
  /\ (forall j, j <> id q ->
        answers (handleOptionSelect q opt ex) !! j = answers ex !! j)
  /\ (forall opt',
        handleOptionSelect q opt' (handleOptionSelect q opt ex)
        = handleOptionSelect q opt' ex).
Proof.
  intros Hs. unfold handleOptionSelect. rewrite Hs. cbn [answers isSubmitted].
  split; [apply lookup_insert_eq|].
  split.
  - intros j Hj. apply lookup_insert_ne. congruence.
  - intros opt'. rewrite ?Hs. cbn. rewrite ?Hs, insert_insert_eq. reflexivity.
Qed.

(* =================================================================== *)
(** ** Further properties of the question bank *)
(* =================================================================== *)

Lemma saveQuestions_twice qs qs' st :
  saveQuestions qs' (saveQuestions qs st) = saveQuestions qs' st.
Proof.
  unfold saveQuestions. cbn [mode examQuestions localStorage].
  rewrite insert_insert_eq. reflexivity.
Qed.

Lemma handleMistake_saved i qs st :
  handleMistake i (saveQuestions qs st)
  = saveQuestions
      (map (fun q => if eqb (id q) i then withFlags false true q else q) qs)
      st.
Proof. unfold handleMistake. cbn [questions saveQuestions]. apply saveQuestions_twice. Qed.

Lemma handleMasterQuestion_saved i qs st :
  handleMasterQuestion i (saveQuestions qs st)
  = saveQuestions
      (map (fun q => if eqb (id q) i then withFlags true false q else q) qs)
      st.
Proof.
  unfold handleMasterQuestion. cbn [questions saveQuestions].
  apply saveQuestions_twice.
Qed.

Lemma Array_includes_cons x w y :
  Array_includes (x :: w) y = eqb y x || Array_includes w y.
Proof. reflexivity. Qed.

Lemma mark_missed_step i w (q : Question) :
  (let q1 := if eqb (id q) i then withFlags false true q else q in
   if Array_includes w (id q1) then withFlags false true q1 else q1)
  = if Array_includes (i :: w) (id q) then withFlags false true q else q.
Proof.
  cbv zeta. rewrite Array_includes_cons.
  destruct (eqb (id q) i); cbn [orb id withFlags].
  - destruct (Array_includes w (id q)); reflexivity.
  - reflexivity.
Qed.

Lemma fold_handleMistake_saved w qs st :
  fold_left (fun s i => handleMistake i s) w (saveQuestions qs st)
  = saveQuestions
      (map (fun q => if Array_includes w (id q) then withFlags false true q
                     else q) qs)
      st.
Proof.
  revert qs. induction w as [|i w IH]; intros qs.
  - cbn [fold_left]. f_equal. symmetry.
    rewrite <- (map_id qs) at 2. apply map_ext. reflexivity.
  - cbn [fold_left]. rewrite handleMistake_saved, IH, map_map. f_equal.
    apply map_ext. intros q. apply mark_missed_step.
Qed.

(** X10: recording the mistakes of an exam is the same as marking the
    missed ids as mistakes one after the other: the two leave the same
    bank and the same storage. *)
Theorem exam_complete_is_iterated_mistake w st :
  handleExamComplete w st = fold_left (fun s i => handleMistake i s) w st.
Proof.
  destruct w as [|i w]; [reflexivity|].
  cbn [fold_left]. unfold handleMistake at 2.
  rewrite fold_handleMistake_saved, map_map.
  unfold handleExamComplete. f_equal. apply map_ext. intros q.
  symmetry. apply mark_missed_step.
Qed.

Lemma withFlags_twice m b m' b' q :
  withFlags m' b' (withFlags m b q) = withFlags m' b' q.
Proof. reflexivity. Qed.

Lemma mark_over_mark (m b m' b' : bool) i (qs : list Question) :
  map (fun q => if eqb (id q) i then withFlags m' b' q else q)
      (map (fun q => if eqb (id q) i then withFlags m b q else q) qs)
  = map (fun q => if eqb (id q) i then withFlags m' b' q else q) qs.
Proof.
  rewrite map_map. apply map_ext. intros q.
  destruct (eqb (id q) i) eqn:E; cbn [id withFlags]; rewrite E; reflexivity.
Qed.

(** X11: the last mark wins.  Marking a question mastered after marking
    it as a mistake leaves the same state as marking it mastered alone,
    and the other way round. *)
Theorem last_mark_wins i st :
  handleMasterQuestion i (handleMistake i st) = handleMasterQuestion i st
  /\ handleMistake i (handleMasterQuestion i st) = handleMistake i st.
Proof.
  split.
  - unfold handleMistake. rewrite handleMasterQuestion_saved, mark_over_mark.
    reflexivity.
  - unfold handleMasterQuestion. rewrite handleMistake_saved, mark_over_mark.
    reflexivity.
Qed.

(** X12: marks on different ids do not interfere: marking one question
    mastered and another one as a mistake gives the same state in either
    order. *)
Theorem marks_commute i j st :
  i <> j ->
  handleMasterQuestion i (handleMistake j st)
  = handleMistake j (handleMasterQuestion i st).
Proof.
  intros Hij. unfold handleMistake at 1. unfold handleMasterQuestion at 2.
  rewrite handleMasterQuestion_saved, handleMistake_saved, !map_map.
  f_equal. apply map_ext. intros q.
  destruct (eqb (id q) j) eqn:Ej, (eqb (id q) i) eqn:Ei;
    cbn [id withFlags]; rewrite ?Ei, ?Ej; try reflexivity.
  apply eqb_eq in Ei, Ej. congruence.
Qed.

Lemma in_marked (m b : bool) i (qs : list Question) q' :
  In q' (map (fun q => if eqb (id q) i then withFlags m b q else q) qs) ->
  id q' = i -> mastered q' = Some m /\ inMistakeBook q' = Some b.
Proof.
  rewrite in_map_iff. intros (q & <- & _) Hid.
  destruct (eqb (id q) i) eqn:E; [split; reflexivity|].
  apply eqb_eq in Hid. congruence.
Qed.

(** X13: the notebooks follow the marks.  After a question is marked as
    a mistake, every question of the bank with its id is listed in the
    mistake notebook and none in the mastered notebook; after it is
    marked mastered, it is the other way round. *)
Theorem notebooks_follow_marks i st q :
  (In q (questions (handleMistake i st)) -> id q = i ->
   In q (mistakeQuestions (handleMistake i st))
   /\ ~ In q (masteredQuestions (handleMistake i st)))
  /\ (In q (questions (handleMasterQuestion i st)) -> id q = i ->
      In q (masteredQuestions (handleMasterQuestion i st))
      /\ ~ In q (mistakeQuestions (handleMasterQuestion i st))).
Proof.
  unfold mistakeQuestions, masteredQuestions. split; intros Hq Hid.
  - destruct (in_marked false true i (questions st) q Hq Hid) as [Hm Hb].
    rewrite !filter_In, Hm, Hb. split; [split; [exact Hq | reflexivity]|].
    intros [_ H]. discriminate H.
  - destruct (in_marked true false i (questions st) q Hq Hid) as [Hm Hb].
    rewrite !filter_In, Hm, Hb. split; [split; [exact Hq | reflexivity]|].
    intros [_ H]. discriminate H.
Qed.

Lemma filter_two_length {A} (f g : A -> bool) (l : list A) :
  (forall x, f x = true -> g x = true -> False) ->
  length (List.filter f l) + length (List.filter g l) <= length l.
Proof.
  intros Hfg. induction l as [|x l IH]; simpl; [lia|].
  destruct (f x) eqn:Ef, (g x) eqn:Eg; simpl; try lia.
  destruct (Hfg x Ef Eg).
Qed.

(** X14: no question is listed in both notebooks, whatever its flags,
    and the two counts of the dashboard never add up to more than the
    number of questions. *)
Theorem notebooks_are_disjoint st :
  (forall q, In q (mistakeQuestions st) -> ~ In q (masteredQuestions st))
  /\ masteredCount st + mistakeCount st <= length (questions st).
Proof.
  unfold masteredCount, mistakeCount, mistakeQuestions, masteredQuestions.
  split.
  - intros q H1 H2. apply filter_In in H1 as [_ H1], H2 as [_ H2].
    rewrite H2 in H1. rewrite andb_false_r in H1. discriminate.
  - apply filter_two_length. intros q H1 H2.
    rewrite H1 in H2. rewrite andb_false_r in H2. discriminate.
Qed.

(** X15: in a bank where no question is both mastered and in the
    mistake book (the invariant the marking operations keep), the mistake
    notebook is simply the list of the questions in the mistake book: the
    test [!q.mastered] of its filter removes nothing. *)
Theorem mistake_notebook_of_consistent_bank st :
  Forall flagsConsistent (questions st) ->
  mistakeQuestions st
  = List.filter (fun q => flagSet (inMistakeBook q)) (questions st).
Proof.
  unfold mistakeQuestions. induction 1 as [|q l Hq _ IH]; [reflexivity|].
  cbn [List.filter]. rewrite IH.
  unfold flagsConsistent in Hq.
  destruct (inMistakeBook q) as [[|]|], (mastered q) as [[|]|];
    try reflexivity.
  exfalso. apply Hq. split; reflexivity.
Qed.

Lemma filter_twice {A} (f : A -> bool) (l : list A) :
  List.filter f (List.filter f l) = List.filter f l.
Proof.
  induction l as [|x l IH]; simpl; [reflexivity|].
  destruct (f x) eqn:E; simpl; rewrite ?E, IH; reflexivity.
Qed.

Lemma filter_all {A} (f : A -> bool) (l : list A) :
  (forall x, In x l -> f x = true) -> List.filter f l = l.
Proof.
  induction l as [|x l IH]; intros H; simpl; [reflexivity|].
  rewrite (H x (or_introl eq_refl)), IH; [reflexivity|].
  intros y Hy. apply H. right. exact Hy.
Qed.

(** X16: a confirmed delete removes every question that has the id and
    keeps all the others; deleting the same id again changes nothing
    more; and deleting an id that no question has leaves the list as it
    was. *)
Theorem delete_removes_by_id i st :
  (forall q, In q (questions (handleDelete true i st))
             <-> In q (questions st) /\ id q <> i)
  /\ handleDelete true i (handleDelete true i st) = handleDelete true i st
  /\ ((forall q, In q (questions st) -> id q <> i) ->
      questions (handleDelete true i st) = questions st).
Proof.
  unfold handleDelete. cbn [negb questions saveQuestions].
  split; [|split].
  - intros q. rewrite filter_In, negb_true_iff.
    split; intros [Hq Hid]; (split; [exact Hq|]).
    + intros E. apply eqb_eq in E. congruence.
    + destruct (eqb (id q) i) eqn:E; [|reflexivity].
      apply eqb_eq in E. congruence.
  - rewrite saveQuestions_twice, filter_twice. reflexivity.
  - intros H. apply filter_all. intros q Hq. apply negb_true_iff.
    destruct (eqb (id q) i) eqn:E; [|reflexivity].
    apply eqb_eq in E. destruct (H q Hq E).
Qed.

(** X17: checking an answer in the quiz.  When the selected option
    matches, the application state is left untouched; when it does not
    (or nothing is selected), the question shown goes to the mistake
    book: every question of the bank with its id is then listed in the
    mistake notebook and not in the mastered one.  Either way the
    question counts as evaluated, and the selection can no longer be
    changed. *)
Theorem checkAnswer_marks_mistake qs qz st cq :
  nth_error qs (quizIndex qz) = Some cq ->
  isEvaluated (fst (checkAnswer qs qz st)) = true
  /\ (forall opt, Quiz_handleOptionSelect opt (fst (checkAnswer qs qz st))
                  = fst (checkAnswer qs qz st))
  /\ (isSelectedCorrect qz cq = true -> snd (checkAnswer qs qz st) = st)
  /\ (isSelectedCorrect qz cq = false ->
      snd (checkAnswer qs qz st) = handleMistake (id cq) st
      /\ forall q, In q (questions (snd (checkAnswer qs qz st))) ->
                   id q = id cq ->
                   In q (mistakeQuestions (snd (checkAnswer qs qz st)))
                   /\ ~ In q (masteredQuestions (snd (checkAnswer qs qz st)))).
Proof.
  intros Hcq. unfold checkAnswer. rewrite Hcq.
  destruct (isSelectedCorrect qz cq) eqn:E; cbn [fst snd].
  - repeat split; try reflexivity; discriminate.
  - split; [reflexivity|]. split; [reflexivity|]. split; [discriminate|].
    intros _. split; [reflexivity|].
    intros q Hq Hid. unfold mistakeQuestions, masteredQuestions.
    destruct (in_marked false true (id cq) (questions st) q Hq Hid) as [Hm Hb].
    rewrite !filter_In, Hm, Hb. split; [split; [exact Hq | reflexivity]|].
    intros [_ H]. discriminate H.
Qed.

(* =================================================================== *)
(** ** Further properties of the importers and of the service *)
(* =================================================================== *)

Lemma mapM__null (f : jsval -> M jsval) elems :
  (forall k, f VNull k = (None, k)) ->
  In VNull elems -> forall k, fst (mapM_ f elems k) = None.
Proof.
  intros Hf. induction elems as [|e elems IH]; intros Hin k; [destruct Hin|].
  cbn [mapM_]. unfold bind.
  destruct Hin as [->|Hin].
  - rewrite Hf. reflexivity.
  - destruct (f e k) as [[y|] k1]; [|reflexivity].
    specialize (IH Hin k1).
    destruct (mapM_ f elems k1) as [[ys|] k2]; [discriminate IH | reflexivity].
Qed.

(** X18: a JSON import is all or nothing.  When the input does not
    parse, or when the payload is [null] or an array with a [null] among
    its elements, the message "JSON 格式无效" is set and the application
    state is left as it was: none of the records is imported, the valid
    ones before the [null] included. *)
Theorem json_import_all_or_nothing imp k st :
  JSON_parse (inputText imp) = None
  \/ (exists v, JSON_parse (inputText imp) = Some v
                /\ In VNull (match v with VArr elems => elems | _ => [v] end)) ->
  exists k',
    handleJsonImport imp k st
    = Some (setError (Some errJsonInvalid) (setError None imp), k', st).
Proof.
  intros H. unfold handleJsonImport, parseJsonInput, bind, lift.
  destruct H as [-> | (v & -> & Hin)].
  - exists k. reflexivity.
  - cbn [ret].
    pose proof (mapM__null validQuestion _ (fun k0 => eq_refl) Hin k) as Hnone.
    destruct (mapM_ validQuestion _ k) as [[vs|] k'];
      [discriminate Hnone | eauto].
Qed.

(** X19: a payload that is a single question record, not an array, is
    imported as one question. *)
Theorem json_import_single_record imp k st e :
  JSON_parse (inputText imp) = Some e ->
  isQuestionRecord e = true ->
  exists q k',
    handleJsonImport imp k st
    = Some (setError None imp, k', handleImport [q] st)
    /\ questions (handleImport [q] st) = questions st ++ [q]
    /\ importedFrom e q.
Proof.
  intros Hparse Hrec.
  destruct (validQuestion_record e k Hrec) as (v & q & k' & Hv & Hq & Himp).
  exists q, k'. split; [|split; [reflexivity | exact Himp]].
  unfold handleJsonImport, parseJsonInput, bind, lift. rewrite Hparse.
  cbn [ret].
  destruct e as [| | | | | |props]; try discriminate Hrec.
  cbn [mapM_]. unfold bind. rewrite Hv. cbn [ret].
  unfold onImport. cbn [mapM]. rewrite Hq. reflexivity.
Qed.

(** The callback of the service functions on a record of the reply. *)
Lemma generatedQuestion_record e k :
  isGeneratedRecord e = true ->
  exists v q,
    generatedQuestion e k = (Some v, S k) /\ asQuestion v = Some q
    /\ generatedFrom e (formatUUID (randomBits k)) q.
Proof.
  intros H. destruct e as [| | | | | |props]; try discriminate.
  cbn [isGeneratedRecord] in H.
  destruct (getProp (js "type") props) as [| | | |t| |] eqn:Ety;
    try discriminate H.
  apply andb_true_iff in H as [H Htg]. apply andb_true_iff in H as [H Hex].
  apply andb_true_iff in H as [H Hca]. apply andb_true_iff in H as [Hop Htx].
  apply isSome_true in Htg as [tg Htg]. apply isSome_true in Hex as [ex Hex].
  apply isSome_true in Hca as [ca Hca]. apply isSome_true in Htx as [tx Htx].
  destruct (getProp (js "text") props) as [| | | |stx| |] eqn:Etx;
    try discriminate Htx.
  destruct (getProp (js "correctAnswer") props) as [| | | |sca| |] eqn:Eca;
    try discriminate Hca.
  unfold generatedQuestion, bind, lift, ret, randomUUID, generatedFrom,
    flagsCleared.
  cbn [member field]. rewrite Ety.
  destruct (eqb t QuestionType.OpenEnded) eqn:Eopen.
  - apply eqb_eq in Eopen. subst t.
    eexists _, _. split; [reflexivity|].
    unfold asQuestion; cbn [spread]; read_props; rewrite ?Ety, ?Etx, ?Eca;
      cbn [asString]; rewrite Hex, Htg;
      cbn [asBool asStrings optional mbind option_bind mapM mret option_ret].
    split; [reflexivity|].
    cbn [id type text options correctAnswer explanation tags mastered
         inMistakeBook].
    repeat split; try reflexivity; try assumption.
    intros Hne. destruct (Hne eq_refl).
  - cbn [orb] in Hop. apply isSome_true in Hop as [op Hop].
    eexists _, _. split; [reflexivity|].
    unfold asQuestion; cbn [spread]; read_props; rewrite ?Ety, ?Etx, ?Eca;
      cbn [asString]; rewrite Hop, Hex, Htg;
      cbn [asBool optional mbind option_bind].
    split; [reflexivity|].
    cbn [id type text options correctAnswer explanation tags mastered
         inMistakeBook].
    repeat split; try reflexivity; try assumption.
    intros E. apply eqb_eq in E. congruence.
Qed.

Lemma generated_records elems :
  Forall (fun e => isGeneratedRecord e = true) elems ->
  forall k, exists vs qs,
    mapM_ generatedQuestion elems k = (Some vs, k + length elems)
    /\ mapM asQuestion vs = Some qs
    /\ Forall2 (fun e q => generatedFrom e (id q) q) elems qs
    /\ map id qs
       = map (fun i => formatUUID (randomBits i)) (seq k (length elems)).
Proof.
  induction 1 as [|e elems He _ IH]; intros k.
  - exists [], []. rewrite Nat.add_0_r. repeat split. constructor.
  - destruct (generatedQuestion_record e k He) as (v & q & Hv & Hq & Hfrom).
    destruct (IH (S k)) as (vs & qs & Hvs & Hqs & Hall & Hids).
    exists (v :: vs), (q :: qs).
    split; [|split; [|split]].
    + cbn [mapM_ length]. unfold bind. rewrite Hv, Hvs. cbn [ret].
      f_equal. lia.
    + cbn [mapM]. rewrite Hq. cbn. rewrite Hqs. reflexivity.
    + constructor; [|exact Hall].
      destruct Hfrom as (Hid & Hrest). split; [reflexivity|].
      exact Hrest.
    + cbn [map length seq]. rewrite Hids.
      destruct Hfrom as (-> & _). reflexivity.
Qed.

(** X20: when the service replies with a JSON object whose "questions"
    is a non-empty array of well-typed records, the AI import (from a
    topic or from raw text) appends one question per record, in order;
    each gets a fresh UUID as its id, whatever id the reply carries, both
    flags false, an empty option list if it is open-ended, and the
    record's other fields; no error is shown. *)
Theorem ai_import_appends apiKey sdk reply imp k st props elems :
  truthy (trim (inputText imp)) = true ->
  callGemini apiKey sdk = Normal reply ->
  JSON_parse (cleanJsonString reply) = Some (VObj props) ->
  getProp (js "questions") props = VArr elems ->
  elems <> [] ->
  Forall (fun e => isGeneratedRecord e = true) elems ->
  exists imported,
    handleAiProcessing apiKey sdk imp k st
    = Some (setIsLoading false (setError None (setIsLoading true imp)),
            k + length elems, handleImport imported st)
    /\ questions (handleImport imported st) = questions st ++ imported
    /\ length imported = length elems
    /\ Forall2 (fun e q => generatedFrom e (id q) q) elems imported
    /\ map id imported
       = map (fun i => formatUUID (randomBits i)) (seq k (length elems)).
Proof.
  intros Hin Hreply Hparse Hq Hne Hrec.
  destruct (generated_records elems Hrec k) as (vs & qs & Hvs & Hqs & Hall & Hids).
  exists qs. split; [|split; [reflexivity|split; [|split; assumption]]].
  - assert (Hp : parseReply reply k = (Some vs, k + length elems)).
    { unfold parseReply, bind, lift. rewrite Hparse. cbn [ret member].
      rewrite Hq. cbn [toBoolean]. exact Hvs. }
    assert (Hvs_ne : vs <> []).
    { intros ->. apply mapM_Some in Hqs. inversion Hqs; subst.
      inversion Hall; subst. congruence. }
    unfold handleAiProcessing. rewrite Hin. cbn [negb].
    destruct (activeTab imp);
      unfold generateQuestionsFromTopic, parseRawTextToQuestions,
        questionsFromReply;
      rewrite Hreply, Hp;
      (destruct vs as [|v vs']; [congruence|]);
      unfold onImport; rewrite Hqs; reflexivity.
  - symmetry. eapply Forall2_length. exact Hall.
Qed.

(** X21: when the call of the service fails (no API key, a rejected
    request, an empty response), the message of the error is what the
    importer shows; the application state and the UUID counter are left
    as they were. *)
Theorem ai_import_shows_service_error apiKey sdk msg imp k st :
  truthy (trim (inputText imp)) = true ->
  callGemini apiKey sdk = Throws msg ->
  handleAiProcessing apiKey sdk imp k st
  = Some (setIsLoading false
            (setError (Some msg) (setError None (setIsLoading true imp))),
          k, st).
Proof.
  intros Hin Hcall. unfold handleAiProcessing. rewrite Hin. cbn [negb].
  destruct (activeTab imp);
    unfold generateQuestionsFromTopic, parseRawTextToQuestions,
      questionsFromReply;
    rewrite Hcall; reflexivity.
Qed.

(** X22: a reply that JSON.parse rejects is reported with the message
    of the service function in use: "AI 解析失败" when extracting from
    raw text, "AI 返回格式有误" when generating from a topic; a reply
    that parses but carries no question (no "questions", a falsy one, or
    an empty array) is reported as "AI 无法生成任何题目".  The state is
    unchanged in both cases. *)
Theorem ai_import_error_messages apiKey sdk reply imp k st :
  truthy (trim (inputText imp)) = true ->
  callGemini apiKey sdk = Normal reply ->
  (JSON_parse (cleanJsonString reply) = None ->
   handleAiProcessing apiKey sdk imp k st
   = Some (setIsLoading false
             (setError (Some (match activeTab imp with
                              | TabAiText => errAiParse
                              | TabJson | TabAiTopic => errAiFormat
                              end))
                       (setError None (setIsLoading true imp))),
           k, st))
  /\ (forall v qv,
        JSON_parse (cleanJsonString reply) = Some v ->
        member v (js "questions") = Some qv ->
        toBoolean qv = false \/ qv = VArr [] ->
        handleAiProcessing apiKey sdk imp k st
        = Some (setIsLoading false
                  (setError (Some errAiNoQuestions)
                            (setError None (setIsLoading true imp))),
                k, st)).
Proof.
  intros Hin Hreply. split.
  - intros Hparse.
    assert (Hp : parseReply reply k = (None, k)).
    { unfold parseReply, bind, lift. rewrite Hparse. reflexivity. }
    unfold handleAiProcessing. rewrite Hin. cbn [negb].
    destruct (activeTab imp);
      unfold generateQuestionsFromTopic, parseRawTextToQuestions,
        questionsFromReply;
      rewrite Hreply, Hp; reflexivity.
  - intros v qv Hparse Hmem Hqv.
    assert (Hp : parseReply reply k = (Some [], k)).
    { unfold parseReply, bind, lift. rewrite Hparse. cbn [ret].
      rewrite Hmem. cbn [ret].
      destruct Hqv as [-> | ->]; reflexivity. }
    unfold handleAiProcessing. rewrite Hin. cbn [negb].
    destruct (activeTab imp);
      unfold generateQuestionsFromTopic, parseRawTextToQuestions,
        questionsFromReply;
      rewrite Hreply, Hp; reflexivity.
Qed.

Lemma startsWith_app p s : startsWith p (p ++ s) = true.
Proof.
  induction p as [|a p IH]; simpl; [reflexivity|].
  rewrite N.eqb_refl. exact IH.
Qed.

Lemma skip_fence s : skipn 3 (backticks ++ s) = s.
Proof. reflexivity. Qed.

(** X23: the fence of a reply is removed.  A reply made of an opening
    fence tagged "json" (in any letter case), blank padding, a non-empty
    body without white space at its ends, blank padding and a closing
    fence is cleaned to the body. *)
Theorem cleanJsonString_unfences tag w1 body w2 :
  latinLower tag = js "json" ->
  blank w1 -> blank w2 -> trimmed body -> body <> [] ->
  cleanJsonString (backticks ++ tag ++ w1 ++ body ++ w2 ++ backticks) = body.
Proof.
  intros Htag H1 H2 [Hb Hr] Hne.
  assert (Hlen : length tag = 4).
  { apply (f_equal (@length N)) in Htag. unfold latinLower in Htag.
    rewrite length_map in Htag. exact Htag. }
  destruct tag as [|a [|b [|c [|d [|? ?]]]]]; try discriminate Hlen.
  unfold cleanJsonString.
  change (truthy (backticks ++ _)) with true. cbn [negb].
  rewrite startsWith_app, skip_fence.
  change (firstn 4 ([a; b; c; d] ++ ?s)) with [a; b; c; d].
  rewrite Htag.
  change (startsWith (js "json") (js "json")) with true. cbv iota.
  change (skipn 4 ([a; b; c; d] ++ ?s)) with s.
  unfold trimStart. rewrite (dropWhile_app_all _ w1 _ H1).
  rewrite (dropWhile_app_front _ body _ Hne Hb).
  rewrite !rev_app_distr.
  change (rev backticks) with backticks.
  rewrite <- !app_assoc, startsWith_app, skip_fence.
  rewrite <- rev_app_distr, rev_involutive.
  unfold trimEnd. rewrite rev_app_distr.
  rewrite (dropWhile_app_all _ (rev w2) _ (Forall_rev_ws w2 H2)).
  rewrite (dropWhile_id _ (rev body) Hr), rev_involutive.
  destruct body; [congruence | reflexivity].
Qed.

(** X24: what is handed to JSON.parse is never the empty string (an
    empty reply becomes "{}"), and a non-empty reply that does not start
    with a fence is handed over unchanged. *)
Theorem cleanJsonString_total text :
  cleanJsonString text <> []
  /\ (text <> [] -> startsWith backticks text = false ->
      cleanJsonString text = text).
Proof.
  unfold cleanJsonString. destruct text as [|c text].
  - split; [discriminate | congruence].
  - cbn [truthy negb]. split.
    + destruct (startsWith backticks (c :: text)); [|discriminate].
      destruct (startsWith backticks (rev _)); [|discriminate].
      destruct (trimEnd _) eqn:E; cbn [truthy]; discriminate.
    + intros _ ->. reflexivity.
Qed.

Lemma callGeminiCatch_throws {A} e : exists msg, @callGeminiCatch A e = Throws msg.
Proof.
  unfold callGeminiCatch.
  destruct (_ || _); [eauto|]. destruct (String_includes _ _); eauto.
Qed.

(** X25: [callGemini] returns a text only when an API key is configured
    and the service answered with a non-empty text, and then it returns
    that text; in every other case it throws. *)
Theorem callGemini_returns_iff apiKey sdk t :
  callGemini apiKey sdk = Normal t
  <-> (exists key, apiKey = Some key /\ key <> [])
      /\ sdk = SdkResponds (Some t) /\ t <> [].
Proof.
  unfold callGemini. split.
  - intros H. destruct apiKey as [key|]; [|discriminate].
    destruct key as [|c key]; [discriminate|]. cbn [truthy negb] in H.
    destruct sdk as [e|[t'|]].
    + destruct (@callGeminiCatch_throws jsstring e) as [m Hm].
      rewrite Hm in H. discriminate.
    + destruct t' as [|c' t']; cbn [truthy] in H.
      * destruct (@callGeminiCatch_throws jsstring
                    (newError (js "Gemini returned empty response")))
          as [m Hm].
        rewrite Hm in H. discriminate.
      * injection H as <-. split; [exists (c :: key); split; [reflexivity | discriminate]|].
        split; [reflexivity | discriminate].
    + destruct (@callGeminiCatch_throws jsstring
                  (newError (js "Gemini returned empty response")))
        as [m Hm].
      rewrite Hm in H. discriminate.
  - intros ((key & -> & Hkey) & -> & Ht).
    destruct key; [congruence|]. destruct t; [congruence|]. reflexivity.
Qed.

Lemma callGemini_text_nonempty apiKey sdk t :
  callGemini apiKey sdk = Normal t -> truthy t = true.
Proof.
  unfold callGemini. intros H.
  destruct apiKey as [key|]; [|discriminate].
  destruct (negb (truthy key)); [discriminate|].
  destruct sdk as [e|[t'|]].
  - destruct (@callGeminiCatch_throws jsstring e) as [m Hm].
    rewrite Hm in H. discriminate.
  - destruct (truthy t') eqn:E.
    + injection H as <-. exact E.
    + destruct (@callGeminiCatch_throws jsstring
                  (newError (js "Gemini returned empty response")))
        as [m Hm].
      rewrite Hm in H. discriminate.
  - destruct (@callGeminiCatch_throws jsstring
                (newError (js "Gemini returned empty response")))
      as [m Hm].
    rewrite Hm in H. discriminate.
Qed.

(** X26: [explainAnswer] always yields a non-empty text: the reply of
    the service when there is one, and otherwise "无法获取解析: "
    followed by the message of the error.  Its fallback "暂无解析" for
    an empty reply is never used, because [callGemini] turns an empty
    reply into an error. *)
Theorem explainAnswer_total apiKey sdk :
  explainAnswer apiKey sdk <> []
  /\ (forall t, callGemini apiKey sdk = Normal t ->
                explainAnswer apiKey sdk = t)
  /\ (forall msg, callGemini apiKey sdk = Throws msg ->
                  explainAnswer apiKey sdk = explanationFailedPrefix ++ msg).
Proof.
  unfold explainAnswer.
  destruct (callGemini apiKey sdk) as [t|msg] eqn:E.
  - pose proof (callGemini_text_nonempty apiKey sdk t E) as Ht.
    rewrite Ht. split; [apply truthy_true; exact Ht|].
    split; [intros t' [= <-]; reflexivity | discriminate].
  - split; [discriminate|].
    split; [discriminate | intros msg' [= <-]; reflexivity].
Qed.

(** X27: loading is safe on a slot that holds nothing usable.  When the
    slot is absent, holds the empty string, or holds a text that
    JSON.parse rejects, the mount effect leaves the state as it is. *)
Theorem load_ignores_unusable_slot st :
  localStorage st !! LOCAL_STORAGE_KEY = None
  \/ localStorage st !! LOCAL_STORAGE_KEY = Some []
  \/ (exists saved, localStorage st !! LOCAL_STORAGE_KEY = Some saved
                    /\ JSON_parse saved = None) ->
  loadQuestions st = Some st.
Proof.
  unfold loadQuestions. intros [-> | [-> | (saved & -> & Hp)]];
    try reflexivity.
  rewrite Hp. destruct (truthy saved); reflexivity.
Qed.

End FlashMaster.

Arguments Normal {A} a.
Arguments Throws {A} msg.

(* ===================================================================== *)
(** ** The model at work: instances, examples and counterexamples *)
(* ===================================================================== *)

Example isMatch_letter :
  isMatch latinLower latinUpper (js "A. Apple") (js "a") = true.
Proof. vm_compute. reflexivity. Qed.

Example isMatch_content :
  isMatch latinLower latinUpper (js "A. Apple") (js "2.  apple ") = true.
Proof. vm_compute. reflexivity. Qed.

Example isMatch_other :
  isMatch latinLower latinUpper (js "A. Apple") (js "B") = false.
Proof. vm_compute. reflexivity. Qed.

Example cleanJsonString_fenced :
  cleanJsonString (js "```json" ++ [10%N] ++ js "{}" ++ [10%N] ++ js "```")
  = js "{}".
Proof. vm_compute. reflexivity. Qed.

Example formatUUID_shape :
  length (formatUUID (sampleBits 0)) = 36.
Proof. vm_compute. reflexivity. Qed.

Lemma latin_letter_case x y :
  isLetter x = true -> isLetter y = true ->
  (latinUpper [x] = latinUpper [y] <-> latinLower [x] = latinLower [y]).
Proof.
  unfold isLetter, latinUpper, latinLower, inRange. cbn [map].
  intros Hx Hy.
  repeat match goal with
         | H : context [(?a <=? ?b)%N] |- _ => destruct (N.leb_spec a b)
         | |- context [(?a <=? ?b)%N] => destruct (N.leb_spec a b)
         end;
    cbn [andb orb] in *; try discriminate;
    split; intros [= E]; f_equal; lia.
Qed.

(** C1, the claim as worded fails: "A." and "B." are equal once their
    prefixes are stripped (nothing is left of either), and [isMatch]
    answers false, because it compares contents only when neither is
    empty. *)
Lemma isMatch_not_as_claimed :
  ~ (isMatch latinLower latinUpper (js "A.") (js "B.") = true
     <-> matches_as_claimed latinLower (js "A.") (js "B.")).
Proof.
  intros [_ H].
  assert (Hc : matches_as_claimed latinLower (js "A.") (js "B.")).
  { split; [discriminate|]. split; [discriminate|].
    right. right. right. vm_compute. reflexivity. }
  apply H in Hc. vm_compute in Hc. discriminate Hc.
Qed.

(** The matcher theorem at the Basic Latin case conversion, on "A. Apple"
    against "a". *)
Lemma isMatch_true_iff_witness :
  (forall x y, isLetter x = true -> isLetter y = true ->
     (latinUpper [x] = latinUpper [y] <-> latinLower [x] = latinLower [y]))
  /\ (isMatch latinLower latinUpper (js "A. Apple") (js "a") = true
      <-> matches_amended latinLower (js "A. Apple") (js "a")).
Proof.
  split; [exact latin_letter_case|].
  apply (isMatch_true_iff latinLower latinUpper latin_letter_case).
Defined.

Lemma sampleBank_gradable :
  Forall (gradable (answers sampleExam)) sampleBank.
Proof. repeat constructor; intros _ P; vm_compute in P; discriminate P. Qed.

(** The score theorem on the sample exam: one answer right out of
    three. *)
Lemma score_is_rounded_percentage_witness :
  sampleBank <> [] /\ length sampleBank <= 39
  /\ Forall (gradable (answers sampleExam)) sampleBank
  /\ exists ex' wrong,
      handleSubmit latinLower latinUpper sampleBank sampleExam
      = Some (ex', wrong)
      /\ score ex'
         = Some (roundedPercent
                   (numCorrect latinLower latinUpper sampleBank
                               (answers sampleExam))
                   (length sampleBank))
      /\ isSubmitted ex' = true.
Proof.
  split; [discriminate|].
  split; [simpl; lia|].
  split; [exact sampleBank_gradable|].
  apply (score_is_rounded_percentage latinLower latinUpper sampleBank
                                     sampleExam);
    [discriminate | simpl; lia | exact sampleBank_gradable].
Defined.

Example sampleExam_score :
  option_map (fun r => score (fst r))
             (handleSubmit latinLower latinUpper sampleBank sampleExam)
  = Some (Some 33%Z).
Proof. vm_compute. reflexivity. Qed.

(** The bound of 39 questions is where the binary64 arithmetic of the
    score stops agreeing with the exact rounding.  A list of forty
    questions (longer than any [startMockExam] builds) with twenty-three
    correct answers has the exact percentage 57.5, which rounds to 58; but
    23/40 is not a binary64 number, [(23 / 40) * 100] evaluates to
    57.49999999999999 and [Math.round] gives 57. *)
Example binary64_score_of_forty_questions :
  numCorrect latinLower latinUpper fortyQuestions (answers fortyExam) = 23
  /\ option_map (fun r => score (fst r))
                (handleSubmit latinLower latinUpper fortyQuestions fortyExam)
     = Some (Some 57%Z)
  /\ roundedPercent 23 (length fortyQuestions) = 58%Z.
Proof.
  split; [vm_compute; reflexivity|].
  split; vm_compute; reflexivity.
Qed.

(** The bank with a question of id "constructor" is one the application
    reaches: a JSON import keeps the id each record brings, and a mock
    exam on a bank of two takes both questions. *)
Example protoApp_is_reachable :
  exists imp k st,
    handleJsonImport stringifyIds sampleBits protoParse
                     (mkImporter TabJson protoJsonText false None) 0 freshApp
    = Some (imp, k, st)
    /\ startMockExam (list bool) coinSort [] st = protoApp.
Proof. eexists _, _, _. split; vm_compute; reflexivity. Qed.

(** The user answers the first question, moves on and leaves the last
    question open. *)
Example protoExam_is_reachable :
  examRun latinLower latinUpper (examQuestions protoApp)
          [ChooseAnswer (js "A. Apple"); ClickNext] initialExam
  = (protoExam, []).
Proof. vm_compute. reflexivity. Qed.

(** C2 fails in the code: a non-empty exam on which submitting reports
    no score.  The exam has two questions; the first is answered
    correctly, the second has the id "constructor" and no recorded
    answer.  For it [answers[q.id]] is the function that every object
    inherits under that name, the test [userAnswer && isMatch(...)] calls
    [option.trim()] on it and throws, and [handleSubmit] ends before
    [setScore]: one answer of two matches and the rounded percentage is
    50, the score stays at its initial 0 and the exam is not
    submitted. *)
Theorem submit_throws_before_score :
  examQuestions protoApp <> []
  /\ answers protoExam !! id protoQuestion = None
  /\ numCorrect latinLower latinUpper (examQuestions protoApp)
                (answers protoExam) = 1
  /\ roundedPercent 1 (length (examQuestions protoApp)) = 50%Z
  /\ handleSubmit latinLower latinUpper (examQuestions protoApp) protoExam
     = None
  /\ examStep latinLower latinUpper (examQuestions protoApp) ClickSubmit
              protoExam
     = (protoExam, None)
  /\ score protoExam = Some 0%Z
  /\ isSubmitted protoExam = false.
Proof.
  split; [discriminate|].
  repeat split; vm_compute; reflexivity.
Qed.

(** C9 fails in the code: a question with no recorded answer that is
    not counted as wrong.  On the same exam, the question of id
    "constructor" has no recorded answer; the grading pass throws on it,
    so submitting builds no list of missed items, calls [onComplete] with
    nothing, and the bank keeps the question outside the mistake book. *)
Theorem unanswered_prototype_id_not_listed :
  In protoQuestion (examQuestions protoApp)
  /\ answers protoExam !! id protoQuestion = None
  /\ grade latinLower latinUpper (examQuestions protoApp) (answers protoExam)
     = None
  /\ submitExam latinLower latinUpper stringifyIds protoExam protoApp
     = (protoExam, protoApp)
  /\ ~ In (id protoQuestion)
          (wrongIds (fst (submitExam latinLower latinUpper stringifyIds
                                     protoExam protoApp)))
  /\ snd (examRun latinLower latinUpper (examQuestions protoApp)
                  [ClickSubmit] protoExam) = []
  /\ Forall (fun b => id b = id protoQuestion ->
                      inMistakeBook b = Some false)
            (questions (snd (submitExam latinLower latinUpper stringifyIds
                                        protoExam protoApp))).
Proof.
  split; [right; left; reflexivity|].
  split; [vm_compute; reflexivity|].
  split; [vm_compute; reflexivity|].
  split; [vm_compute; reflexivity|].
  split; [vm_compute; intros H; exact H|].
  split; [vm_compute; reflexivity|].
  vm_compute. repeat constructor; intros H; try discriminate H.
Qed.

(** With an answer recorded for it, the same question is graded like
    any other: the throw comes from the inherited member alone. *)
Example protoExam_answered :
  option_map snd
    (handleSubmit latinLower latinUpper (examQuestions protoApp)
       (handleOptionSelect protoQuestion (js "C. Plum") protoExam))
  = Some [js "constructor"].
Proof. vm_compute. reflexivity. Qed.

(** The exam theorem on the sample exam. *)
Lemma exam_complete_marks_missed_witness :
  Forall (gradable (answers sampleExam)) (examQuestions sampleApp)
  /\ isSubmitted (fst (submitExam latinLower latinUpper stringifyIds
                                  sampleExam sampleApp)) = true
  /\ exists correctCount,
      grade latinLower latinUpper (examQuestions sampleApp)
            (answers sampleExam)
      = Some (correctCount,
              wrongIds (fst (submitExam latinLower latinUpper stringifyIds
                                        sampleExam sampleApp)))
      /\ length (wrongIds (fst (submitExam latinLower latinUpper
                                           stringifyIds sampleExam
                                           sampleApp)))
         + correctCount
         = length (examQuestions sampleApp)
      /\ correctCount
         = numCorrect latinLower latinUpper (examQuestions sampleApp)
                      (answers sampleExam).
Proof.
  split; [exact sampleBank_gradable|].
  destruct (exam_complete_marks_missed latinLower latinUpper stringifyIds
              sampleExam sampleApp sampleBank_gradable) as (H1 & _ & H3).
  split; [exact H1 | exact H3].
Defined.

Lemma insertByCoins_permutes coins x sorted :
  Permutation (fst (insertByCoins coins x sorted)) (x :: sorted).
Proof.
  revert coins. induction sorted as [|y ys IH]; intros coins; simpl.
  - reflexivity.
  - destruct coins as [|[|] coins']; simpl; try reflexivity.
    specialize (IH coins').
    destruct (insertByCoins coins' x ys) as [l c]. simpl in *.
    rewrite IH. apply perm_swap.
Qed.

Lemma coinSort_permutes coins l : Permutation (coinSort coins l) l.
Proof.
  unfold coinSort. induction l as [|x l IH]; simpl; [reflexivity|].
  destruct (sortByCoins coins l) as [s c]. simpl in IH.
  rewrite insertByCoins_permutes. constructor. exact IH.
Qed.

(** The sampling theorem with the coin-driven insertion sort as the
    engine's sort, on a bank of forty questions: thirty are taken. *)
Lemma startMockExam_sample_witness :
  questions fortyApp <> []
  /\ (let selected :=
        examQuestions (startMockExam (list bool) coinSort fortyCoins
                                     fortyApp) in
      length selected = Nat.min 30 (length (questions fortyApp))
      /\ (forall q, In q selected -> In q (questions fortyApp))
      /\ (exists rest,
             coinSort fortyCoins (questions fortyApp) = selected ++ rest
             /\ Permutation (selected ++ rest) (questions fortyApp))
      /\ (List.NoDup (questions fortyApp) -> List.NoDup selected)
      /\ mode (startMockExam (list bool) coinSort fortyCoins fortyApp)
         = MockExam
      /\ questions (startMockExam (list bool) coinSort fortyCoins fortyApp)
         = questions fortyApp).
Proof.
  split; [discriminate|].
  apply (startMockExam_sample (list bool) coinSort coinSort_permutes
                              fortyCoins fortyApp).
  discriminate.
Defined.

(** On that bank the sample is cut to thirty and is not the front of the
    bank: it is taken from the sorted list. *)
Example startMockExam_forty :
  let selected :=
    examQuestions (startMockExam (list bool) coinSort fortyCoins fortyApp) in
  length (questions fortyApp) = 40
  /\ length selected = 30
  /\ selected = firstn 30 (coinSort fortyCoins (questions fortyApp))
  /\ map id selected <> map id (firstn 30 (questions fortyApp)).
Proof.
  cbv zeta. split; [vm_compute; reflexivity|].
  split; [vm_compute; reflexivity|].
  split; [vm_compute; reflexivity|].
  vm_compute. discriminate.
Qed.

Example coinSort_shuffles :
  map id (coinSort [true; false; true] sampleBank)
  = [js "q0"; js "q2"; js "q1"].
Proof. vm_compute. reflexivity. Qed.

(** C5, the claim as worded fails: marking as mastered a question that is
    in the mistake book takes it out of the mistake book, and marking a
    mastered question as a mistake takes its mastered flag away. *)
Lemma flags_not_independent :
  ~ (map inMistakeBook
         (questions (handleMasterQuestion stringifyIds (js "q1") sampleApp))
     = map inMistakeBook (questions sampleApp)
     /\ map mastered
            (questions (handleMistake stringifyIds (js "q2") sampleApp))
        = map mastered (questions sampleApp)).
Proof. intros [H _]. vm_compute in H. discriminate H. Qed.

Example mistake_clears_mastered :
  map mastered (questions (handleMistake stringifyIds (js "q2") sampleApp))
  = [None; Some false; Some false].
Proof. vm_compute. reflexivity. Qed.

(** The import theorem on a payload of two records, one without id and
    type, one with both and a stale [mastered] flag. *)
Lemma json_import_appends_witness :
  sampleParse (inputText sampleImporter)
  = Some (VArr [ VObj [ (js "text", VStr (js "2+2?"));
                        (js "correctAnswer", VStr (js "4")) ];
                 VObj [ (js "id", VStr (js "q7"));
                        (js "type", VStr QuestionType.TrueFalse);
                        (js "text", VStr (js "Sky is blue"));
                        (js "options",
                         VArr [VStr (js "A. True"); VStr (js "B. False")]);
                        (js "correctAnswer", VStr (js "A"));
                        (js "mastered", VBool true) ] ])
  /\ exists imported k',
      handleJsonImport stringifyIds sampleBits sampleParse sampleImporter 0
                       sampleApp
      = Some (setError None sampleImporter, k',
              handleImport stringifyIds imported sampleApp)
      /\ questions (handleImport stringifyIds imported sampleApp)
         = questions sampleApp ++ imported
      /\ length imported = 2.
Proof.
  split; [vm_compute; reflexivity|].
  destruct (json_import_appends stringifyIds sampleBits sampleParse
              sampleImporter 0 sampleApp
              [ VObj [ (js "text", VStr (js "2+2?"));
                       (js "correctAnswer", VStr (js "4")) ];
                VObj [ (js "id", VStr (js "q7"));
                       (js "type", VStr QuestionType.TrueFalse);
                       (js "text", VStr (js "Sky is blue"));
                       (js "options",
                        VArr [VStr (js "A. True"); VStr (js "B. False")]);
                       (js "correctAnswer", VStr (js "A"));
                       (js "mastered", VBool true) ] ])
    as (imported & k' & H1 & H2 & H3 & _).
  - vm_compute. reflexivity.
  - repeat constructor.
  - exists imported, k'. repeat split; assumption.
Defined.

Example json_import_result :
  option_map (fun r => map (fun q => (id q, type q, mastered q))
                           (skipn 3 (questions (snd r))))
    (handleJsonImport stringifyIds sampleBits sampleParse sampleImporter 0
                      sampleApp)
  = Some [ (js "00000000-0000-4000-9234-56789abcdef0",
            QuestionType.OpenEnded, Some false);
           (js "q7", QuestionType.TrueFalse, Some false) ].
Proof. vm_compute. reflexivity. Qed.

(** The failure theorem on a reply that is no JSON at all. *)
Lemma ai_import_fails_closed_witness :
  truthy (trim (inputText sampleAiImporter)) = true
  /\ callGemini (Some (js "key")) (SdkResponds (Some (js "Sorry, no.")))
     = Normal (js "Sorry, no.")
  /\ ~ hasQuestionsArray sampleParse (js "Sorry, no.")
  /\ exists imp' k' msg,
      handleAiProcessing stringifyIds sampleBits sampleParse
                         (Some (js "key"))
                         (SdkResponds (Some (js "Sorry, no.")))
                         sampleAiImporter 0 sampleApp
      = Some (imp', k', sampleApp)
      /\ error imp' = Some msg
      /\ In msg [errAiFormat; errAiParse; errAiNoQuestions]
      /\ isLoading imp' = false.
Proof.
  assert (Hno : ~ hasQuestionsArray sampleParse (js "Sorry, no.")).
  { intros (props & elems & Hp & _). vm_compute in Hp. discriminate Hp. }
  split; [vm_compute; reflexivity|].
  split; [vm_compute; reflexivity|].
  split; [exact Hno|].
  apply (ai_import_fails_closed stringifyIds sampleBits sampleParse
           (Some (js "key")) (SdkResponds (Some (js "Sorry, no.")))
           (js "Sorry, no.") sampleAiImporter 0 sampleApp);
    [vm_compute; reflexivity | vm_compute; reflexivity | exact Hno].
Defined.

Example ai_import_empty_object :
  option_map (fun r => (error (fst (fst r)), questions (snd r)))
    (handleAiProcessing stringifyIds sampleBits sampleParse (Some (js "key"))
                        (SdkResponds (Some (js "{}"))) sampleAiImporter 0
                        sampleApp)
  = Some (Some errAiNoQuestions, sampleBank).
Proof. vm_compute. reflexivity. Qed.

(** The theorem on unanswered questions, on the question the sample exam
    leaves open. *)
Lemma unanswered_is_counted_wrong_witness :
  Forall (gradable (answers sampleExam)) (examQuestions sampleApp)
  /\ In (sampleQuestion 2 (js "C. Plum") (Some true) (Some false))
        (examQuestions sampleApp)
  /\ (answers sampleExam
        !! id (sampleQuestion 2 (js "C. Plum") (Some true) (Some false))
      = None
      \/ answers sampleExam
           !! id (sampleQuestion 2 (js "C. Plum") (Some true) (Some false))
         = Some [])
  /\ exists correctCount wrong,
      grade latinLower latinUpper (examQuestions sampleApp)
            (answers sampleExam)
      = Some (correctCount, wrong)
      /\ In (js "q2") wrong
      /\ correctCount + length wrong = length (examQuestions sampleApp)
      /\ score (fst (submitExam latinLower latinUpper stringifyIds
                                sampleExam sampleApp))
         = finalScore correctCount (length (examQuestions sampleApp)).
Proof.
  assert (Hq : In (sampleQuestion 2 (js "C. Plum") (Some true) (Some false))
                  (examQuestions sampleApp)).
  { right. right. left. reflexivity. }
  assert (Ha : answers sampleExam
                 !! id (sampleQuestion 2 (js "C. Plum") (Some true) (Some false))
               = None
               \/ answers sampleExam
                    !! id (sampleQuestion 2 (js "C. Plum") (Some true)
                                          (Some false))
                  = Some []).
  { left. vm_compute. reflexivity. }
  destruct (unanswered_is_counted_wrong latinLower latinUpper stringifyIds
              sampleExam sampleApp _ sampleBank_gradable Hq Ha)
    as (c & w & H1 & H2 & H3 & _ & _ & H6 & _).
  split; [exact sampleBank_gradable|].
  split; [exact Hq|]. split; [exact Ha|].
  exists c, w. repeat split; assumption.
Defined.

Example nothing_answered :
  let r := submitExam latinLower latinUpper stringifyIds initialExam
                      sampleApp in
  score (fst r) = Some 0%Z
  /\ wrongIds (fst r) = [js "q0"; js "q1"; js "q2"]
  /\ map inMistakeBook (questions (snd r))
     = [Some true; Some true; Some true].
Proof. vm_compute. repeat split; reflexivity. Qed.

Example answer_recorded :
  answers (handleOptionSelect
             (sampleQuestion 2 (js "C. Plum") (Some true) (Some false))
             (js "C. Plum") sampleExam) !! js "q2"
  = Some (js "C. Plum").
Proof. vm_compute. reflexivity. Qed.

Example sampleExam_missed :
  wrongIds (fst (submitExam latinLower latinUpper stringifyIds sampleExam
                            sampleApp))
  = [js "q1"; js "q2"].
Proof. vm_compute. reflexivity. Qed.

Lemma sampleBank_consistent : Forall flagsConsistent (questions sampleApp).
Proof.
  repeat constructor; intros [Hm Hb]; vm_compute in Hm, Hb; discriminate.
Qed.

(** The invariant theorem on the sample bank. *)
Lemma flags_stay_consistent_witness :
  Forall flagsConsistent (questions sampleApp)
  /\ Forall flagsConsistent
       (questions (handleMasterQuestion stringifyIds (js "q1") sampleApp))
  /\ Forall flagsConsistent
       (questions (handleMistake stringifyIds (js "q2") sampleApp))
  /\ Forall flagsConsistent
       (questions (snd (submitExam latinLower latinUpper stringifyIds
                                   sampleExam sampleApp))).
Proof.
  split; [exact sampleBank_consistent|].
  destruct (flags_stay_consistent latinLower latinUpper stringifyIds
              sampleBits sampleParse sampleApp sampleBank_consistent)
    as (H1 & H2 & _ & H4 & _).
  split; [apply H1|]. split; [apply H2 | apply H4].
Defined.

(* ===================================================================== *)
(** ** The further properties at work *)
(* ===================================================================== *)

Lemma blank_space : blank [32%N].
Proof. repeat constructor. Qed.

Lemma blank_newline : blank [10%N].
Proof. repeat constructor. Qed.

Lemma blank_nil : blank [].
Proof. constructor. Qed.

(** Padding on "A. Apple" and on "apple". *)
Lemma isMatch_ignores_padding_witness :
  isMatch latinLower latinUpper
          ([32%N] ++ js "A. Apple" ++ [10%N]) ([] ++ js "apple" ++ [32%N])
  = isMatch latinLower latinUpper (js "A. Apple") (js "apple").
Proof.
  apply (isMatch_ignores_padding latinLower latinUpper
           [32%N] [10%N] [] [32%N] (js "A. Apple") (js "apple")).
  - exact blank_space.
  - exact blank_newline.
  - exact blank_nil.
  - exact blank_space.
  - split; vm_compute; reflexivity.
  - discriminate.
  - split; vm_compute; reflexivity.
  - discriminate.
Defined.

(** A space against a line break. *)
Lemma isMatch_blank_strings_witness :
  isMatch latinLower latinUpper [32%N] [10%N] = true.
Proof.
  apply (isMatch_blank_strings latinLower latinUpper [32%N] [10%N]).
  - discriminate.
  - discriminate.
  - exact blank_space.
  - exact blank_newline.
Defined.

Lemma sampleBank_ids_unique : List.NoDup (map id sampleBank).
Proof.
  vm_compute. repeat constructor; simpl; intros H;
    repeat (destruct H as [H|H]; [discriminate H|]); exact H.
Qed.

(** The first question of the sample exam, answered "A. Apple" for "A". *)
Lemma missed_iff_not_matched_witness :
  List.NoDup (map id sampleBank)
  /\ In (sampleQuestion 0 (js "A") None None) sampleBank
  /\ Forall (gradable (answers sampleExam)) sampleBank
  /\ exists ex' wrong,
      handleSubmit latinLower latinUpper sampleBank sampleExam
      = Some (ex', wrong)
      /\ wrongIds ex' = wrong
      /\ (In (js "q0") wrong
          <-> answeredCorrectly latinLower latinUpper (answers sampleExam)
                                (sampleQuestion 0 (js "A") None None)
              = false).
Proof.
  split; [exact sampleBank_ids_unique|].
  split; [left; reflexivity|].
  split; [exact sampleBank_gradable|].
  apply (missed_iff_not_matched latinLower latinUpper sampleBank sampleExam
           (sampleQuestion 0 (js "A") None None) sampleBank_ids_unique);
    [left; reflexivity | exact sampleBank_gradable].
Defined.

(** The bounds on the score of the sample exam. *)
Lemma score_bounds_witness :
  sampleBank <> [] /\ length sampleBank <= 39
  /\ Forall (gradable (answers sampleExam)) sampleBank
  /\ exists ex' wrong z,
      handleSubmit latinLower latinUpper sampleBank sampleExam
      = Some (ex', wrong)
      /\ score ex' = Some z
      /\ (0 <= z <= 100)%Z.
Proof.
  split; [discriminate|]. split; [simpl; lia|].
  split; [exact sampleBank_gradable|].
  destruct (score_bounds latinLower latinUpper sampleBank sampleExam)
    as (ex' & w & z & H & _ & Hz & Hb & _);
    [discriminate | simpl; lia | exact sampleBank_gradable |].
  exists ex', w, z. repeat split; try assumption; lia.
Defined.

(** Every control of the screen used on a submitted exam. *)
Lemma exam_result_is_final_witness :
  isSubmitted submittedExam = true
  /\ snd (examRun latinLower latinUpper sampleBank
                  [ChooseAnswer (js "B. Pear"); ClickNext; ClickNext;
                   ClickSubmit; ClickPrev]
                  submittedExam) = []
  /\ answers (fst (examRun latinLower latinUpper sampleBank
                           [ChooseAnswer (js "B. Pear"); ClickNext; ClickNext;
                            ClickSubmit; ClickPrev]
                           submittedExam)) = answers submittedExam.
Proof.
  split; [reflexivity|].
  destruct (exam_result_is_final latinLower latinUpper sampleBank
              [ChooseAnswer (js "B. Pear"); ClickNext; ClickNext;
               ClickSubmit; ClickPrev]
              submittedExam eq_refl) as (H1 & _ & H2 & _).
  split; assumption.
Defined.

Example exam_session :
  let r := examRun latinLower latinUpper sampleBank
             [ChooseAnswer (js "a"); ClickSubmit; ClickNext;
              ChooseAnswer (js "B. Pear"); ClickNext; ClickNext;
              ClickSubmit; ChooseAnswer (js "x"); ClickSubmit]
             initialExam in
  snd r = [[js "q2"]] /\ score (fst r) = Some 67%Z
  /\ currentIndex (fst r) = 0.
Proof. vm_compute. repeat split; reflexivity. Qed.

(** Too many clicks on "next" from the first question. *)
Lemma exam_index_in_range_witness :
  currentIndex initialExam < length sampleBank
  /\ currentIndex
       (fst (examRun latinLower latinUpper sampleBank
                     [ClickNext; ClickNext; ClickNext; ClickNext; ClickPrev]
                     initialExam))
     < length sampleBank.
Proof.
  split; [simpl; lia|].
  destruct (exam_index_in_range latinLower latinUpper sampleBank
              [ClickNext; ClickNext; ClickNext; ClickNext; ClickPrev]
              initialExam) as [H _]; [simpl; lia | exact H].
Defined.

(** An answer for the question the sample exam leaves open. *)
Lemma answer_is_recorded_witness :
  isSubmitted sampleExam = false
  /\ answers (handleOptionSelect
                (sampleQuestion 2 (js "C. Plum") (Some true) (Some false))
                (js "C") sampleExam) !! js "q2" = Some (js "C").
Proof.
  split; [reflexivity|].
  destruct (answer_is_recorded
              (sampleQuestion 2 (js "C. Plum") (Some true) (Some false))
              (js "C") sampleExam eq_refl) as [H _].
  exact H.
Defined.

(** Mastering q0 and missing q1, in both orders. *)
Lemma marks_commute_witness :
  js "q0" <> js "q1"
  /\ handleMasterQuestion stringifyIds (js "q0")
       (handleMistake stringifyIds (js "q1") sampleApp)
     = handleMistake stringifyIds (js "q1")
         (handleMasterQuestion stringifyIds (js "q0") sampleApp).
Proof.
  split; [discriminate|].
  apply (marks_commute stringifyIds (js "q0") (js "q1") sampleApp).
  discriminate.
Defined.

(** The mistake notebook of the sample bank. *)
Lemma mistake_notebook_of_consistent_bank_witness :
  Forall flagsConsistent (questions sampleApp)
  /\ mistakeQuestions sampleApp
     = List.filter (fun q => flagSet (inMistakeBook q)) (questions sampleApp).
Proof.
  split; [exact sampleBank_consistent|].
  apply (mistake_notebook_of_consistent_bank sampleApp sampleBank_consistent).
Defined.

(** "A. Apple" checked against the question whose answer is "Pear". *)
Lemma checkAnswer_marks_mistake_witness :
  nth_error sampleBank (quizIndex sampleQuiz)
  = Some (sampleQuestion 1 (js "Pear") (Some false) (Some true))
  /\ isEvaluated (fst (checkAnswer latinLower latinUpper stringifyIds
                                   sampleBank sampleQuiz sampleApp)) = true.
Proof.
  split; [reflexivity|].
  destruct (checkAnswer_marks_mistake latinLower latinUpper stringifyIds
              sampleBank sampleQuiz sampleApp
              (sampleQuestion 1 (js "Pear") (Some false) (Some true)) eq_refl)
    as [H _].
  exact H.
Defined.

Example demoted_by_wrong_answer :
  map (fun q => (mastered q, inMistakeBook q))
      (questions
         (snd (checkAnswer latinLower latinUpper stringifyIds sampleBank
                           (mkQuiz 2 false (Some (js "B. Pear")) false)
                           sampleApp)))
  = [(None, None); (Some false, Some true); (Some false, Some true)].
Proof. vm_compute. reflexivity. Qed.

(** A payload with a null among its elements. *)
Lemma json_import_all_or_nothing_witness :
  (tableParse sampleTable (inputText (mkImporter TabJson (js "[null]") false None))
   = None
   \/ exists v,
       tableParse sampleTable
                  (inputText (mkImporter TabJson (js "[null]") false None))
       = Some v
       /\ In VNull (match v with VArr elems => elems | _ => [v] end))
  /\ exists k',
      handleJsonImport stringifyIds sampleBits (tableParse sampleTable)
                       (mkImporter TabJson (js "[null]") false None) 0
                       sampleApp
      = Some (setError (Some errJsonInvalid)
                (setError None (mkImporter TabJson (js "[null]") false None)),
              k', sampleApp).
Proof.
  assert (H : tableParse sampleTable
                (inputText (mkImporter TabJson (js "[null]") false None))
              = None
              \/ exists v,
                  tableParse sampleTable
                    (inputText (mkImporter TabJson (js "[null]") false None))
                  = Some v
                  /\ In VNull (match v with VArr elems => elems | _ => [v] end)).
  { right. exists (VArr [VNull]). split; [vm_compute; reflexivity|].
    left. reflexivity. }
  split; [exact H|].
  apply (json_import_all_or_nothing stringifyIds sampleBits
           (tableParse sampleTable)
           (mkImporter TabJson (js "[null]") false None) 0 sampleApp H).
Defined.

(** A payload that is one record. *)
Lemma json_import_single_record_witness :
  tableParse sampleTable
             (inputText (mkImporter TabJson sampleRecordText false None))
  = Some sampleRecordValue
  /\ isQuestionRecord sampleRecordValue = true
  /\ exists q k',
      handleJsonImport stringifyIds sampleBits (tableParse sampleTable)
                       (mkImporter TabJson sampleRecordText false None) 0
                       sampleApp
      = Some (setError None (mkImporter TabJson sampleRecordText false None),
              k', handleImport stringifyIds [q] sampleApp).
Proof.
  split; [vm_compute; reflexivity|]. split; [vm_compute; reflexivity|].
  destruct (json_import_single_record stringifyIds sampleBits
              (tableParse sampleTable)
              (mkImporter TabJson sampleRecordText false None) 0 sampleApp
              sampleRecordValue)
    as (q & k' & H & _); [vm_compute; reflexivity | vm_compute; reflexivity |].
  exists q, k'. exact H.
Defined.

(** The fenced sample reply, on the topic tab. *)
Lemma ai_import_appends_witness :
  truthy (trim (inputText sampleAiImporter)) = true
  /\ callGemini (Some (js "key")) (SdkResponds (Some sampleReply))
     = Normal sampleReply
  /\ tableParse sampleTable (cleanJsonString sampleReply)
     = Some (VObj sampleReplyProps)
  /\ getProp (js "questions") sampleReplyProps = VArr sampleReplyRecords
  /\ sampleReplyRecords <> []
  /\ Forall (fun e => isGeneratedRecord e = true) sampleReplyRecords
  /\ exists imported,
      handleAiProcessing stringifyIds sampleBits (tableParse sampleTable)
                         (Some (js "key")) (SdkResponds (Some sampleReply))
                         sampleAiImporter 5 sampleApp
      = Some (setIsLoading false
                (setError None (setIsLoading true sampleAiImporter)),
              5 + length sampleReplyRecords,
              handleImport stringifyIds imported sampleApp)
      /\ length imported = length sampleReplyRecords.
Proof.
  assert (Hrec : Forall (fun e => isGeneratedRecord e = true)
                        sampleReplyRecords).
  { repeat constructor. }
  split; [vm_compute; reflexivity|]. split; [vm_compute; reflexivity|].
  split; [vm_compute; reflexivity|]. split; [vm_compute; reflexivity|].
  split; [discriminate|]. split; [exact Hrec|].
  destruct (ai_import_appends stringifyIds sampleBits (tableParse sampleTable)
              (Some (js "key")) (SdkResponds (Some sampleReply)) sampleReply
              sampleAiImporter 5 sampleApp sampleReplyProps
              sampleReplyRecords)
    as (imported & H1 & _ & H2 & _);
    [vm_compute; reflexivity | vm_compute; reflexivity
     | vm_compute; reflexivity | vm_compute; reflexivity
     | discriminate | exact Hrec |].
  exists imported. split; assumption.
Defined.

Example ai_import_result :
  option_map (fun r => map (fun q => (id q, type q, options q))
                           (skipn 3 (questions (snd r))))
    (handleAiProcessing stringifyIds sampleBits (tableParse sampleTable)
                        (Some (js "key")) (SdkResponds (Some sampleReply))
                        sampleAiImporter 0 sampleApp)
  = Some [ (formatUUID (sampleBits 0), QuestionType.OpenEnded, Some []);
           (formatUUID (sampleBits 1), QuestionType.TrueFalse,
            Some [js "A. True"; js "B. False"]) ].
Proof. vm_compute. reflexivity. Qed.

(** No API key configured. *)
Lemma ai_import_shows_service_error_witness :
  truthy (trim (inputText sampleAiImporter)) = true
  /\ callGemini None (SdkResponds (Some sampleReply)) = Throws errNoApiKey
  /\ handleAiProcessing stringifyIds sampleBits (tableParse sampleTable)
                        None (SdkResponds (Some sampleReply))
                        sampleAiImporter 0 sampleApp
     = Some (setIsLoading false
               (setError (Some errNoApiKey)
                         (setError None (setIsLoading true sampleAiImporter))),
             0, sampleApp).
Proof.
  split; [vm_compute; reflexivity|]. split; [reflexivity|].
  apply (ai_import_shows_service_error stringifyIds sampleBits
           (tableParse sampleTable) None (SdkResponds (Some sampleReply))
           errNoApiKey sampleAiImporter 0 sampleApp);
    [vm_compute; reflexivity | reflexivity].
Defined.

(** A reply that is no JSON, on the topic tab. *)
Lemma ai_import_error_messages_witness :
  truthy (trim (inputText sampleAiImporter)) = true
  /\ callGemini (Some (js "key")) (SdkResponds (Some (js "Sorry, no.")))
     = Normal (js "Sorry, no.")
  /\ (tableParse sampleTable (cleanJsonString (js "Sorry, no.")) = None ->
      handleAiProcessing stringifyIds sampleBits (tableParse sampleTable)
                         (Some (js "key"))
                         (SdkResponds (Some (js "Sorry, no.")))
                         sampleAiImporter 0 sampleApp
      = Some (setIsLoading false
                (setError (Some errAiFormat)
                          (setError None (setIsLoading true sampleAiImporter))),
              0, sampleApp)).
Proof.
  split; [vm_compute; reflexivity|]. split; [vm_compute; reflexivity|].
  destruct (ai_import_error_messages stringifyIds sampleBits
              (tableParse sampleTable) (Some (js "key"))
              (SdkResponds (Some (js "Sorry, no."))) (js "Sorry, no.")
              sampleAiImporter 0 sampleApp) as [H _];
    [vm_compute; reflexivity | vm_compute; reflexivity |].
  exact H.
Defined.

(** The fenced sample reply. *)
Lemma cleanJsonString_unfences_witness :
  latinLower (js "JSON") = js "json"
  /\ blank [10%N] /\ trimmed sampleReplyBody /\ sampleReplyBody <> []
  /\ cleanJsonString
       (backticks ++ js "JSON" ++ [10%N] ++ sampleReplyBody ++ [10%N]
                  ++ backticks)
     = sampleReplyBody.
Proof.
  assert (Ht : trimmed sampleReplyBody) by (split; vm_compute; reflexivity).
  split; [vm_compute; reflexivity|]. split; [exact blank_newline|].
  split; [exact Ht|]. split; [discriminate|].
  apply (cleanJsonString_unfences (js "JSON") [10%N] sampleReplyBody [10%N]);
    [vm_compute; reflexivity | exact blank_newline | exact blank_newline
     | exact Ht | discriminate].
Defined.

(** A fresh browser: nothing stored. *)
Lemma load_ignores_unusable_slot_witness :
  (localStorage sampleApp !! LOCAL_STORAGE_KEY = None
   \/ localStorage sampleApp !! LOCAL_STORAGE_KEY = Some []
   \/ exists saved, localStorage sampleApp !! LOCAL_STORAGE_KEY = Some saved
                    /\ tableParse sampleTable saved = None)
  /\ loadQuestions (tableParse sampleTable) sampleApp = Some sampleApp.
Proof.
  assert (H : localStorage sampleApp !! LOCAL_STORAGE_KEY = None
              \/ localStorage sampleApp !! LOCAL_STORAGE_KEY = Some []
              \/ exists saved,
                  localStorage sampleApp !! LOCAL_STORAGE_KEY = Some saved
                  /\ tableParse sampleTable saved = None).
  { left. vm_compute. reflexivity. }
  split; [exact H|].
  apply (load_ignores_unusable_slot (tableParse sampleTable) sampleApp H).
Defined.

